(** * Overtime tracking: the timecard report of [Overtime_Code.py]

    A shallow embedding of [generate_timecard_report] and of the pandas
    operations it is built from, followed by the properties of the report.

    Conventions of the embedding.
    - A data frame is the list of its rows, in row order.
    - A float64 cell is a [num]: [None] is NaN, [Some q] a finite value.  Finite
      values are exact rationals: rounding and the infinities of float64 are
      outside the model.
    - A [Timestamp] is the number of its calendar day, counted from 1970-01-01
      (day 0, a Thursday); a missing timestamp (NaT) is [None].  A time of
      day within the date is outside the model.
    - The [Day Info] string of a day is kept as the values it is formatted
      from; the text of a float is not modelled.
    - An exception is a value of [outcome].
    - Reading the spreadsheet ([load_data]), writing the CSV and opening it
      ([open_file]) are input and output around the report and are not
      modelled, but for the normalisation of the pay codes (line 41): the
      embedding starts from the frame that [load_data] returns and ends with
      the frame that is written. *)

From Stdlib Require Import ZArith QArith Qabs Qminmax List Ascii String Bool Lia
  Lqa Permutation Sorted.
Import ListNotations.

Local Open Scope Z_scope.

(* ------------------------------------------------------------------ *)
(** * Numeric cells                                                    *)
(* ------------------------------------------------------------------ *)

Module Num.

Local Open Scope Q_scope.

(** A float64 cell. *)
Definition num := option Q.

Definition NaN : num := None.

(** [a + b] and [a - b]: NaN propagates. *)
Definition add (a b : num) : num :=
  match a, b with
  | Some x, Some y => Some (x + y)
  | _, _ => None
  end.

Definition sub (a b : num) : num :=
  match a, b with
  | Some x, Some y => Some (x - y)
  | _, _ => None
  end.

(** [a <= b] and [a > b]: every comparison with NaN is [False]. *)
Definition le (a b : num) : bool :=
  match a, b with
  | Some x, Some y => Qle_bool x y
  | _, _ => false
  end.

Definition gt (a b : num) : bool :=
  match a, b with
  | Some x, Some y => negb (Qle_bool x y)
  | _, _ => false
  end.

(** Python's [abs]. *)
Definition abs (a : num) : num :=
  match a with
  | Some x => Some (Qabs x)
  | None => None
  end.

(** Python's [max(0, x)]: the builtin keeps its first argument unless a
    later one compares greater, so [max(0, nan)] is [0]. *)
Definition max0 (x : num) : num :=
  if gt x (Some 0) then x else Some 0.

(** [Series.fillna(0)]. *)
Definition fillna0 (a : num) : num :=
  match a with
  | Some x => Some x
  | None => Some 0
  end.

(** The values of a column that are not NaN. *)
Fixpoint present (l : list num) : list Q :=
  match l with
  | [] => []
  | Some x :: l' => x :: present l'
  | None :: l' => present l'
  end.

Fixpoint total (l : list Q) : Q :=
  match l with
  | [] => 0
  | x :: l' => x + total l'
  end.

(** [GroupBy.sum()]: NaN is skipped and a group without values sums to 0. *)
Definition sum (l : list num) : num := Some (total (present l)).

(** [GroupBy.mean()]: NaN is skipped and a group without values has mean
    NaN. *)
Definition mean (l : list num) : num :=
  match present l with
  | [] => None
  | x :: xs => Some (total (x :: xs) / inject_Z (Z.of_nat (List.length (x :: xs))))
  end.

(** A cell that holds a value at least [0]. *)
Definition nonneg (a : num) : Prop :=
  match a with
  | Some x => 0 <= x
  | None => False
  end.

(** Equality of cells: both NaN, or equal values. *)
Definition same (a b : num) : Prop :=
  match a, b with
  | Some x, Some y => x == y
  | None, None => True
  | _, _ => False
  end.

End Num.

Abbreviation num := Num.num.

(* ------------------------------------------------------------------ *)
(** * Timestamps and weekly periods                                    *)
(* ------------------------------------------------------------------ *)

(** [Timestamp.weekday()]: Monday is 0 and Sunday is 6. *)
Definition weekday (d : Z) : Z := (d + 3) mod 7.

(** [Timestamp.day_name()]. *)
Definition day_name (d : Z) : string :=
  nth (Z.to_nat (weekday d))
      ["Monday"; "Tuesday"; "Wednesday"; "Thursday"; "Friday"; "Saturday";
       "Sunday"]%string ""%string.

(** [Timestamp.to_period('W-SAT')]: the weekly period that ends on a
    Saturday and contains the day.  A period is represented by its last day. *)
Definition to_period_W_SAT (d : Z) : Z := d + (5 - weekday d) mod 7.

(** Exceptions of the run. *)
Inductive exn : Type :=
| AttributeError (attr : string)
| KeyError (col : string).

Inductive outcome (A : Type) : Type :=
| Returns (a : A)
| Raises (e : exn).

Arguments Returns {A} a.
Arguments Raises {A} e.

Definition bind {A B : Type} (m : outcome A) (f : A -> outcome B) : outcome B :=
  match m with
  | Returns a => f a
  | Raises e => Raises e
  end.

Notation "x <- m ;; k" := (bind m (fun x => k))
  (at level 61, m at next level, right associativity).

Fixpoint mapM {A B : Type} (f : A -> outcome B) (l : list A) : outcome (list B) :=
  match l with
  | [] => Returns []
  | a :: l' => b <- f a ;; bs <- mapM f l' ;; Returns (b :: bs)
  end.

(** [lambda r: r.start_time] on an element of the period column.
    [Series.apply] calls the function on every element of the column, the
    missing ones included (pandas 2.1 and later map element by element and
    [apply] has no [na_action]).  The element of a missing date is NaT, which
    has no attribute [start_time]: reading it raises [AttributeError]. *)
Definition start_time (r : option Z) : outcome Z :=
  match r with
  | Some p => Returns (p - 6)
  | None => Raises (AttributeError "start_time")
  end.

(** The week start of a day, as line 74 computes it. *)
Definition week_start (d : Z) : Z := to_period_W_SAT d - 6.

(** Day number of a calendar date (proleptic Gregorian), for writing
    examples: [ymd 1970 1 1 = 0]. *)
Definition ymd (y m d : Z) : Z :=
  let y' := if m <=? 2 then y - 1 else y in
  let era := y' / 400 in
  let yoe := y' - era * 400 in
  let mp := (m + 9) mod 12 in
  let doy := (153 * mp + 2) / 5 + d - 1 in
  let doe := yoe * 365 + yoe / 4 - yoe / 100 + doy in
  era * 146097 + doe - 719468.

(* ------------------------------------------------------------------ *)
(** * Data frame operations                                            *)
(* ------------------------------------------------------------------ *)

Section Frames.

(** The type of a group or join key, its equality and the order in which
    pandas sorts it. *)
Context {K : Type}.
Variable K_dec : forall a b : K, {a = b} + {a <> b}.
Variable K_leb : K -> K -> bool.

Definition keqb (a b : K) : bool := if K_dec a b then true else false.

Fixpoint insert (k : K) (l : list K) : list K :=
  match l with
  | [] => [k]
  | x :: l' => if K_leb k x then k :: x :: l' else x :: insert k l'
  end.

Fixpoint sort (l : list K) : list K :=
  match l with
  | [] => []
  | x :: l' => insert x (sort l')
  end.

(** The key column of a frame with the rows of a missing key left out
    ([dropna=True], the default of [groupby]). *)
Definition dropna_keys {R : Type} (key : R -> option K) (df : list R) : list K :=
  flat_map (fun r => match key r with Some k => [k] | None => [] end) df.

(** The group keys of [df.groupby(key)]: distinct and sorted
    ([sort=True]). *)
Definition group_keys {R : Type} (key : R -> option K) (df : list R) : list K :=
  sort (nodup K_dec (dropna_keys key df)).

(** The rows of one group, in frame order. *)
Definition group {R : Type} (key : R -> option K) (df : list R) (k : K) : list R :=
  filter (fun r => match key r with Some k' => keqb k' k | None => false end) df.

(** [df.groupby(key)[col].agg().reset_index()]: one row per group. *)
Definition groupby {R V : Type} (key : R -> option K) (agg : list R -> V)
    (df : list R) : list (K * V) :=
  map (fun k => (k, agg (group key df k))) (group_keys key df).

(** The rows of a frame whose key is [k]. *)
Definition matches {R : Type} (kr : R -> K) (right : list R) (k : K) : list R :=
  filter (fun r => keqb (kr r) k) right.

(** [pd.merge(left, right, on=key, how='left')]: the left rows in order,
    each with every right row of its key, or with none. *)
Definition merge_left {L R : Type} (kl : L -> K) (kr : R -> K)
    (left : list L) (right : list R) : list (L * option R) :=
  flat_map (fun l =>
              match matches kr right (kl l) with
              | [] => [(l, None)]
              | ms => map (fun r => (l, Some r)) ms
              end) left.

(** [pd.merge(left, right, on=key, how='outer')]: the keys of both sides,
    sorted; the rows of a key are the pairs of its left and right rows. *)
Definition merge_outer {L R : Type} (kl : L -> K) (kr : R -> K)
    (left : list L) (right : list R) : list (K * option L * option R) :=
  flat_map (fun k =>
              match matches kl left k, matches kr right k with
              | [], rs => map (fun r => (k, None, Some r)) rs
              | ls, [] => map (fun l => (k, Some l, None)) ls
              | ls, rs =>
                  flat_map (fun l => map (fun r => (k, Some l, Some r)) rs) ls
              end)
           (sort (nodup K_dec (map kl left ++ map kr right))).

End Frames.

(* ------------------------------------------------------------------ *)
(** * The input frame and its keys                                     *)
(* ------------------------------------------------------------------ *)

(** A row of the frame that [load_data] returns: [Date] is a timestamp or
    NaT, [Hours] and [Regular Hours] are floats or NaN, [Pay Code] is a
    lower-case, stripped string or missing. *)
Record entry : Type := mk_entry {
  Date : option Z;
  EmpID : Z;
  Hours : num;
  Pay_Code : option string;
  Location : string;
  Regular_Hours : num
}.

(** A row of [df] once the column [Week Start] is set. *)
Record row : Type := mk_row {
  cols : entry;
  Week_Start : Z
}.

(** The key [['Location','EmpID','Week Start']]. *)
Definition WeekKey : Type := string * Z * Z.

(** The key [['Location','EmpID','Week Start','Date']]. *)
Definition DayKey : Type := WeekKey * Z.

(** The key of the pivot: the index columns and the day name. *)
Definition CellKey : Type := WeekKey * string.

Definition WeekKey_dec (a b : WeekKey) : {a = b} + {a <> b}.
Proof. repeat decide equality; auto using Z.eq_dec, string_dec. Defined.

Definition DayKey_dec (a b : DayKey) : {a = b} + {a <> b}.
Proof. decide equality; auto using Z.eq_dec, WeekKey_dec. Defined.

Definition CellKey_dec (a b : CellKey) : {a = b} + {a <> b}.
Proof. decide equality; auto using string_dec, WeekKey_dec. Defined.

(** Lexicographic order of the keys. *)
Definition lex (c : comparison) (rest : bool) : bool :=
  match c with
  | Lt => true
  | Eq => rest
  | Gt => false
  end.

Definition WeekKey_compare (a b : WeekKey) : comparison :=
  let '(l1, e1, w1) := a in
  let '(l2, e2, w2) := b in
  match String.compare l1 l2 with
  | Eq => match e1 ?= e2 with
          | Eq => w1 ?= w2
          | c => c
          end
  | c => c
  end.

Definition WeekKey_leb (a b : WeekKey) : bool :=
  lex (WeekKey_compare a b) true.

Definition DayKey_leb (a b : DayKey) : bool :=
  lex (WeekKey_compare (fst a) (fst b)) (snd a <=? snd b).

Definition CellKey_leb (a b : CellKey) : bool :=
  lex (WeekKey_compare (fst a) (fst b)) (String.leb (snd a) (snd b)).

Definition week_key (r : row) : option WeekKey :=
  Some (Location (cols r), EmpID (cols r), Week_Start r).

Definition day_key (r : row) : option DayKey :=
  match Date (cols r) with
  | Some d => Some (Location (cols r), EmpID (cols r), Week_Start r, d)
  | None => None
  end.

(** [df['Pay Code'] == code], row by row. *)
Definition pay_code_is (code : string) (r : row) : bool :=
  match Pay_Code (cols r) with
  | Some p => String.eqb p code
  | None => false
  end.

(** The value column of the right side of a left or outer merge: NaN where
    no row matched. *)
Definition col {K : Type} (o : option (K * num)) : num :=
  match o with
  | Some (_, v) => v
  | None => Num.NaN
  end.

(* ------------------------------------------------------------------ *)
(** * generate_timecard_report                                         *)
(* ------------------------------------------------------------------ *)

(** Line 74: [df['Week Start'] = df['Date'].dt.to_period(week_freq)
    .apply(lambda r: r.start_time)]. *)
Definition add_week_start (df : list entry) : outcome (list row) :=
  mapM (fun e =>
          ws <- start_time (option_map to_period_W_SAT (Date e)) ;;
          Returns {| cols := e; Week_Start := ws |}) df.

Definition weekly_avg_reg (df : list row) : list (WeekKey * num) :=
  groupby WeekKey_dec WeekKey_leb week_key
          (fun g => Num.mean (map (fun r => Regular_Hours (cols r)) g)) df.

Definition sum_Hours (g : list row) : num :=
  Num.sum (map (fun r => Hours (cols r)) g).

Definition daily_total (df : list row) : list (DayKey * num) :=
  groupby DayKey_dec DayKey_leb day_key sum_Hours df.

Definition daily_reg (df : list row) : list (DayKey * num) :=
  groupby DayKey_dec DayKey_leb day_key sum_Hours
          (filter (pay_code_is "regular") df).

Definition daily_ot (df : list row) : list (DayKey * num) :=
  groupby DayKey_dec DayKey_leb day_key sum_Hours
          (filter (pay_code_is "overtime") df).

(** A row of [daily]. *)
Record daily_row : Type := mk_daily {
  day : DayKey;
  Total_Hours : num;
  Reg : num;
  OT_Paid : num;
  Sched_Reg : num;
  Proj_OT : num
}.

Definition daily_of (x : (DayKey * num) * option (DayKey * num)
                        * option (DayKey * num) * option (WeekKey * num))
  : daily_row :=
  let '(t, reg, ot, sched) := x in
  {| day := fst t;
     Total_Hours := snd t;
     Reg := Num.fillna0 (col reg);
     OT_Paid := Num.fillna0 (col ot);
     Sched_Reg := col sched;
     Proj_OT := Num.max0 (Num.sub (snd t) (col sched)) |}.

(** Lines 92 to 101. *)
Definition daily (df : list row) : list daily_row :=
  let d1 := merge_left DayKey_dec fst fst (daily_total df) (daily_reg df) in
  let d2 := merge_left DayKey_dec (fun x => fst (fst x)) fst d1 (daily_ot df) in
  let d3 := merge_left WeekKey_dec (fun x => fst (fst (fst (fst x)))) fst d2
                       (weekly_avg_reg df) in
  map daily_of d3.

(** A cell of the pivot and of the report. *)
Inductive value : Type :=
| Str (s : string)
| Int (z : Z)
| Float (q : Q)
| Time (t : Z)
| Info (date : Z) (total reg ot proj : num)
| Null.

(** [Info] stands for the [Day Info] string of a day,
    ["<%a %m/%d>: <total> hrs (Reg: <reg>, OT Paid: <ot>, Proj OT: <proj>)"],
    kept as the values it is formatted from. *)
Definition Day_Info (d : daily_row) : value :=
  Info (snd (day d)) (Total_Hours d) (Reg d) (OT_Paid d) (Proj_OT d).

Definition of_num (x : num) : value :=
  match x with
  | Some q => Float q
  | None => Null
  end.

Definition notnull (v : value) : bool :=
  match v with
  | Null => false
  | _ => true
  end.

(** [aggfunc='first']: the first value of the group that is not null. *)
Definition first (l : list value) : value :=
  match filter notnull l with
  | v :: _ => v
  | [] => Null
  end.

(** The pivot after [reset_index]: the names of its weekday columns, and
    per row the index key and the cells of those columns. *)
Record pivot_frame : Type := mk_pivot {
  pivot_columns : list string;
  pivot_rows : list (WeekKey * list value)
}.

Definition cell_key (d : daily_row) : option CellKey :=
  Some (fst (day d), day_name (snd (day d))).

(** Lines 109 to 111: [pivot_table] groups by the index and the day name,
    takes the first [Day Info] of each group and unstacks the day names into
    columns; a cell without a group is null. *)
Definition pivot_table (daily : list daily_row) : pivot_frame :=
  let agged :=
    groupby CellKey_dec CellKey_leb cell_key (fun g => first (map Day_Info g))
            daily in
  let index :=
    sort WeekKey_leb (nodup WeekKey_dec (map (fun x => fst (fst x)) agged)) in
  let columns :=
    sort String.leb (nodup string_dec (map (fun x => snd (fst x)) agged)) in
  {| pivot_columns := columns;
     pivot_rows :=
       map (fun k =>
              (k, map (fun c =>
                         match matches CellKey_dec fst agged (k, c) with
                         | (_, v) :: _ => v
                         | [] => Null
                         end) columns)) index |}.

Definition day_order : list string :=
  ["Sunday"; "Monday"; "Tuesday"; "Wednesday"; "Thursday"; "Friday";
   "Saturday"]%string.

Definition has_column (c : string) (columns : list string) : bool :=
  existsb (String.eqb c) columns.

(** Lines 114 to 116: a weekday that is no column of the pivot becomes a
    column of empty strings. *)
Definition add_missing_days (pivot : pivot_frame) : pivot_frame :=
  fold_left (fun p d =>
               if has_column d (pivot_columns p) then p
               else {| pivot_columns := pivot_columns p ++ [d];
                       pivot_rows :=
                         map (fun r => (fst r, snd r ++ [Str ""]))
                             (pivot_rows p) |})
            day_order pivot.

Definition reg_week (df : list row) : list (WeekKey * num) :=
  groupby WeekKey_dec WeekKey_leb week_key sum_Hours
          (filter (pay_code_is "regular") df).

Definition ot_week (df : list row) : list (WeekKey * num) :=
  groupby WeekKey_dec WeekKey_leb week_key sum_Hours
          (filter (pay_code_is "overtime") df).

Definition weekly_proj_ot (daily : list daily_row) : list (WeekKey * num) :=
  groupby WeekKey_dec WeekKey_leb (fun d => Some (fst (day d)))
          (fun g => Num.sum (map Proj_OT g)) daily.

(** Lines 142 to 148, on the three columns of the row that it reads. *)
Definition compute_ot_owed (Weekly_Total_Hours Weekly_OT_Paid Weekly_Proj_OT : num)
  : num :=
  if Num.le Weekly_Total_Hours (Some 40%Q) then Weekly_Proj_OT
  else
    let diff := Num.sub Weekly_OT_Paid Weekly_Proj_OT in
    if Num.gt diff (Some 0%Q) then Some 0%Q else Num.abs diff.

(** A row of [weekly_agg]. *)
Record weekly_row : Type := mk_weekly {
  week : WeekKey;
  Weekly_Regular_Hours : num;
  Weekly_OT_Paid : num;
  Weekly_Total_Hours : num;
  Weekly_Proj_OT : num;
  Overtime_Owed : num
}.

Definition weekly_of (x : WeekKey * option (WeekKey * num)
                         * option (WeekKey * num) * option (WeekKey * num))
  : weekly_row :=
  let '(k, reg, ot, proj) := x in
  let Regular := Num.fillna0 (col reg) in
  let Paid := Num.fillna0 (col ot) in
  let Total := Num.add Regular Paid in
  let Proj := Num.fillna0 (col proj) in
  {| week := k;
     Weekly_Regular_Hours := Regular;
     Weekly_OT_Paid := Paid;
     Weekly_Total_Hours := Total;
     Weekly_Proj_OT := Proj;
     Overtime_Owed := compute_ot_owed Total Paid Proj |}.

(** Lines 120 to 150. *)
Definition weekly_agg (df : list row) (daily : list daily_row) : list weekly_row :=
  let w1 := merge_outer WeekKey_dec WeekKey_leb fst fst (reg_week df) (ot_week df) in
  let w2 := merge_left WeekKey_dec (fun x => fst (fst x)) fst w1
                       (weekly_proj_ot daily) in
  map weekly_of w2.

(** A frame with named columns: every row has one cell per column. *)
Record frame : Type := mk_frame {
  columns : list string;
  data : list (list value)
}.

Definition weekly_columns : list string :=
  ["Weekly Regular Hours"; "Weekly OT Paid"; "Weekly Total Hours";
   "Weekly Proj OT"; "Overtime Owed"]%string.

Definition weekly_cells (w : option weekly_row) : list value :=
  match w with
  | Some w => [of_num (Weekly_Regular_Hours w); of_num (Weekly_OT_Paid w);
               of_num (Weekly_Total_Hours w); of_num (Weekly_Proj_OT w);
               of_num (Overtime_Owed w)]
  | None => [Null; Null; Null; Null; Null]
  end.

Definition key_cells (k : WeekKey) : list value :=
  let '(location, emp, ws) := k in [Str location; Int emp; Time ws].

(** Line 154: [pd.merge(pivot, weekly_agg, on=[...], how='left')]. *)
Definition merge_report (pivot : pivot_frame) (weekly : list weekly_row) : frame :=
  {| columns := ["Location"; "EmpID"; "Week Start"]%string
                ++ pivot_columns pivot ++ weekly_columns;
     data :=
       map (fun x => key_cells (fst (fst x)) ++ snd (fst x) ++ weekly_cells (snd x))
           (merge_left WeekKey_dec fst week (pivot_rows pivot) weekly) |}.

Definition final_cols : list string :=
  ["EmpID"; "Location"; "Week Start"]%string ++ day_order ++ weekly_columns.

(** The cell of a row under the column named [c]. *)
Fixpoint cell (columns : list string) (r : list value) (c : string) : option value :=
  match columns, r with
  | c' :: cs, v :: vs => if String.eqb c' c then Some v else cell cs vs c
  | _, _ => None
  end.

(** [df[cols]]: the named columns in the order of [cols]; a name that is
    no column of the frame raises [KeyError]. *)
Definition select (cs : list string) (f : frame) : outcome frame :=
  match find (fun c => negb (has_column c (columns f))) cs with
  | Some c => Raises (KeyError c)
  | None =>
      Returns {| columns := cs;
                 data := map (fun r => map (fun c => match cell (columns f) r c with
                                                     | Some v => v
                                                     | None => Null
                                                     end) cs) (data f) |}
  end.

(** The frame that [generate_timecard_report] writes to [output_file]. *)
Definition generate_timecard_report (df : list entry) : outcome frame :=
  df <- add_week_start df ;;
  let daily := daily df in
  let pivot := add_missing_days (pivot_table daily) in
  let weekly_agg := weekly_agg df daily in
  let report := merge_report pivot weekly_agg in
  select final_cols report.

(* ------------------------------------------------------------------ *)
(** * The frames, row by row                                           *)
(* ------------------------------------------------------------------ *)

(** The frames of the run are joins of group-by results.  The definitions
    below give the row that each join holds for a key; the lemmas of the
    next part show that the frames consist of exactly these rows. *)

Definition is_regular : row -> bool := pay_code_is "regular".
Definition is_overtime : row -> bool := pay_code_is "overtime".

(** The rows of [df] of one week and of one day. *)
Definition week_rows (df : list row) (k : WeekKey) : list row :=
  group WeekKey_dec week_key df k.

Definition day_rows (df : list row) (dk : DayKey) : list row :=
  group DayKey_dec day_key df dk.

Definition day_keys (df : list row) : list DayKey :=
  group_keys DayKey_dec DayKey_leb day_key df.

Definition week_keys (df : list row) : list WeekKey :=
  group_keys WeekKey_dec WeekKey_leb week_key df.

(** The row of [daily] for a day. *)
Definition daily_at (df : list row) (dk : DayKey) : daily_row :=
  let Total := sum_Hours (day_rows df dk) in
  let Sched :=
    Num.mean (map (fun r => Regular_Hours (cols r)) (week_rows df (fst dk))) in
  {| day := dk;
     Total_Hours := Total;
     Reg := sum_Hours (day_rows (filter is_regular df) dk);
     OT_Paid := sum_Hours (day_rows (filter is_overtime df) dk);
     Sched_Reg := Sched;
     Proj_OT := Num.max0 (Num.sub Total Sched) |}.

(** The rows of [daily] of one week. *)
Definition week_days (df : list row) (k : WeekKey) : list daily_row :=
  group WeekKey_dec (fun d => Some (fst (day d))) (daily df) k.

(** The keys of [weekly_agg]: the weeks with a row coded "regular" or
    "overtime". *)
Definition paid_week_keys (df : list row) : list WeekKey :=
  sort WeekKey_leb
       (nodup WeekKey_dec
              (week_keys (filter is_regular df) ++ week_keys (filter is_overtime df))).

(** The row of [weekly_agg] for a week. *)
Definition weekly_at (df : list row) (k : WeekKey) : weekly_row :=
  let Regular := sum_Hours (week_rows (filter is_regular df) k) in
  let Paid := sum_Hours (week_rows (filter is_overtime df) k) in
  let Total := Num.add Regular Paid in
  let Proj := Num.sum (map Proj_OT (week_days df k)) in
  {| week := k;
     Weekly_Regular_Hours := Regular;
     Weekly_OT_Paid := Paid;
     Weekly_Total_Hours := Total;
     Weekly_Proj_OT := Proj;
     Overtime_Owed := compute_ot_owed Total Paid Proj |}.

(** The groups of the pivot. *)
Definition pivot_keys (df : list row) : list CellKey :=
  group_keys CellKey_dec CellKey_leb cell_key (daily df).

(** The index of the pivot, which is the index of the report. *)
Definition report_index (df : list row) : list WeekKey :=
  sort WeekKey_leb (nodup WeekKey_dec (map fst (pivot_keys df))).

(** The weekday columns of the pivot before the loop of line 114. *)
Definition pivot_cols (df : list row) : list string :=
  sort String.leb (nodup string_dec (map snd (pivot_keys df))).

(** The cell of the pivot for a week and one of its columns. *)
Definition pivot_cell (df : list row) (k : WeekKey) (c : string) : value :=
  if in_dec CellKey_dec (k, c) (pivot_keys df) then
    first (map Day_Info (group CellKey_dec cell_key (daily df) (k, c)))
  else Null.

(** The weekdays that the loop of line 114 adds to columns [cs]. *)
Definition missing_days (cs : list string) (days : list string) : list string :=
  filter (fun d => negb (has_column d cs)) days.

(** The cell of a week under a weekday column of the report. *)
Definition day_cell (df : list row) (k : WeekKey) (c : string) : value :=
  if has_column c (pivot_cols df) then pivot_cell df k c else Str "".

(** The row of the report for a week. *)
Definition report_row (df : list row) (k : WeekKey) : list value :=
  [Int (snd (fst k)); Str (fst (fst k)); Time (snd k)]
  ++ map (day_cell df k) day_order
  ++ weekly_cells (if in_dec WeekKey_dec k (paid_week_keys df)
                   then Some (weekly_at df k) else None).

(** The row of [df] that line 74 makes of an entry with a date. *)
Definition dated (e : entry) (d : Z) : row :=
  {| cols := e; Week_Start := week_start d |}.

(** The frame of line 74 when every entry has a date. *)
Definition stamped (df : list entry) : list row :=
  flat_map (fun e => match Date e with
                     | Some d => [dated e d]
                     | None => []
                     end) df.

(** The week of an entry: [None] for an entry without a date. *)
Definition entry_week (e : entry) : option WeekKey :=
  match Date e with
  | Some d => Some (Location e, EmpID e, week_start d)
  | None => None
  end.

(** The employee-week [k] has an entry on the weekday named [c]. *)
Definition works_on (df : list entry) (k : WeekKey) (c : string) : Prop :=
  exists e d, In e df /\ Date e = Some d /\ entry_week e = Some k /\ day_name d = c.

(** Some entry of the input falls on the weekday named [c]. *)
Definition anyone_works_on (df : list entry) (c : string) : Prop :=
  exists e d, In e df /\ Date e = Some d /\ day_name d = c.

(** The employee-week [k] has an entry coded "regular" or "overtime". *)
Definition has_paid_entry (df : list entry) (k : WeekKey) : Prop :=
  exists e, In e df /\ entry_week e = Some k
            /\ (Pay_Code e = Some "regular"%string
                \/ Pay_Code e = Some "overtime"%string).

(** The cell of a report row under a column of [final_cols]. *)
Definition report_cell (r : list value) (c : string) : option value :=
  cell final_cols r c.

(** The key cells of the report row of a week. *)
Definition is_row_of (k : WeekKey) (r : list value) : Prop :=
  report_cell r "Location" = Some (Str (fst (fst k)))
  /\ report_cell r "EmpID" = Some (Int (snd (fst k)))
  /\ report_cell r "Week Start" = Some (Time (snd k)).

(* ------------------------------------------------------------------ *)
(** * load_data: the pay code column                                   *)
(* ------------------------------------------------------------------ *)

(** Line 41, [df['Pay Code'].str.lower().str.strip()], on ASCII text: a
    string is the sequence of its characters, all below 128.  There
    [str.lower] maps A..Z to a..z and [str.strip] removes the leading and
    trailing characters for which [str.isspace] holds: tab, line feed,
    vertical tab, form feed, carriage return, the separators 28 to 31 and
    the space. *)
Definition ascii_text (s : string) : Prop :=
  Forall (fun c => (nat_of_ascii c < 128)%nat) (list_ascii_of_string s).

Definition lower_char (c : ascii) : ascii :=
  let n := nat_of_ascii c in
  if ((65 <=? n) && (n <=? 90))%nat then ascii_of_nat (n + 32) else c.

Fixpoint lower (s : string) : string :=
  match s with
  | EmptyString => EmptyString
  | String c s' => String (lower_char c) (lower s')
  end.

Definition isspace (c : ascii) : bool :=
  let n := nat_of_ascii c in
  (((9 <=? n) && (n <=? 13)) || ((28 <=? n) && (n <=? 32)))%nat.

Fixpoint lstrip (s : string) : string :=
  match s with
  | EmptyString => EmptyString
  | String c s' => if isspace c then lstrip s' else s
  end.

Fixpoint rstrip (s : string) : string :=
  match s with
  | EmptyString => EmptyString
  | String c s' =>
      match rstrip s' with
      | EmptyString => if isspace c then EmptyString else String c EmptyString
      | r => String c r
      end
  end.

Definition strip (s : string) : string := rstrip (lstrip s).

(** The pay code of a row after line 41; a cell that is no string stays
    missing. *)
Definition normalize_pay_code (raw : option string) : option string :=
  option_map (fun s => strip (lower s)) raw.

(** A string of white space only. *)
Fixpoint blank (s : string) : bool :=
  match s with
  | EmptyString => true
  | String c s' => isspace c && blank s'
  end.

(* ------------------------------------------------------------------ *)
(** * Notions for the properties of the run                            *)
(* ------------------------------------------------------------------ *)

(** The strict lexicographic order of the keys. *)
Definition WeekKey_lt (a b : WeekKey) : Prop := WeekKey_compare a b = Lt.

(** No row of the frame has negative hours. *)
Definition nonneg_hours (df : list row) : Prop :=
  forall r h, In r df -> Hours (cols r) = Some h -> (0 <= h)%Q.

(** The sum of a list of cells that all hold numbers. *)
Definition total_of (l : list num) : Q := Num.total (Num.present l).

(* ------------------------------------------------------------------ *)
(** * Sample inputs                                                    *)
(* ------------------------------------------------------------------ *)

Definition entry_on (d : Z) (emp : Z) (h : num) (code : string) (loc : string)
    (rh : num) : entry :=
  {| Date := Some d; EmpID := emp; Hours := h; Pay_Code := Some code;
     Location := loc; Regular_Hours := rh |}.

(** One employee, 8 regular hours from Monday 2024-03-11 to Friday and 6
    overtime hours on Saturday, scheduled for 8 hours. *)
Definition six_day_week : list entry :=
  [entry_on (ymd 2024 3 11) 7 (Some 8%Q) "regular" "HQ" (Some 8%Q);
   entry_on (ymd 2024 3 12) 7 (Some 8%Q) "regular" "HQ" (Some 8%Q);
   entry_on (ymd 2024 3 13) 7 (Some 8%Q) "regular" "HQ" (Some 8%Q);
   entry_on (ymd 2024 3 14) 7 (Some 8%Q) "regular" "HQ" (Some 8%Q);
   entry_on (ymd 2024 3 15) 7 (Some 8%Q) "regular" "HQ" (Some 8%Q);
   entry_on (ymd 2024 3 16) 7 (Some 6%Q) "overtime" "HQ" (Some 8%Q)].

Definition six_day_week_key : WeekKey := ("HQ"%string, 7, ymd 2024 3 10).

(** One entry of 5 hours coded "holiday" on Tuesday 2024-03-12, without a
    scheduled value. *)
Definition holiday_only : list entry :=
  [entry_on (ymd 2024 3 12) 8 (Some 5%Q) "holiday" "HQ" None].

Definition holiday_only_key : WeekKey := ("HQ"%string, 8, ymd 2024 3 10).

(** One entry of 10 hours coded "holiday" on Tuesday 2024-03-12, scheduled
    for 8 hours. *)
Definition holiday_overtime : list entry :=
  [entry_on (ymd 2024 3 12) 8 (Some 10%Q) "holiday" "HQ" (Some 8%Q)].

(** Two employees in the same week: one works on Monday, the other on
    Tuesday. *)
Definition two_staff : list entry :=
  [entry_on (ymd 2024 3 11) 7 (Some 8%Q) "regular" "HQ" (Some 8%Q);
   entry_on (ymd 2024 3 12) 8 (Some 8%Q) "regular" "HQ" (Some 8%Q)].

(** An entry of Tuesday 2024-03-12 whose hours did not parse. *)
Definition no_hours_entry : entry :=
  entry_on (ymd 2024 3 12) 7 None "regular" "HQ" (Some 8%Q).

(** A valid entry and one whose date did not parse. *)
Definition with_missing_date : list entry :=
  [entry_on (ymd 2024 3 11) 7 (Some 8%Q) "regular" "HQ" (Some 8%Q);
   {| Date := None; EmpID := 7; Hours := Some 8%Q; Pay_Code := Some "regular"%string;
      Location := "HQ"%string; Regular_Hours := Some 8%Q |}].

(* ------------------------------------------------------------------ *)
(** * Facts about the data frame operations                            *)
(* ------------------------------------------------------------------ *)

Section FrameFacts.

Context {K : Type}.
Variable K_dec : forall a b : K, {a = b} + {a <> b}.
Variable K_leb : K -> K -> bool.

Lemma keqb_true (a b : K) : keqb K_dec a b = true <-> a = b.
Proof. unfold keqb. destruct (K_dec a b); split; congruence. Qed.

Lemma keqb_refl (a : K) : keqb K_dec a a = true.
Proof. now apply keqb_true. Qed.

Lemma insert_perm (k : K) (l : list K) :
  Permutation (insert K_leb k l) (k :: l).
Proof.
  induction l as [|x l IH]; simpl.
  - reflexivity.
  - destruct (K_leb k x).
    + reflexivity.
    + rewrite IH. apply perm_swap.
Qed.

Lemma sort_perm (l : list K) : Permutation (sort K_leb l) l.
Proof.
  induction l as [|x l IH]; simpl.
  - constructor.
  - rewrite insert_perm. now constructor.
Qed.

Lemma In_sort (k : K) (l : list K) : In k (sort K_leb l) <-> In k l.
Proof.
  split; apply Permutation_in; [|symmetry]; apply sort_perm.
Qed.

Lemma NoDup_sort (l : list K) : NoDup l -> NoDup (sort K_leb l).
Proof.
  intro H. eapply Permutation_NoDup; [symmetry; apply sort_perm | exact H].
Qed.

Lemma In_dropna_keys {R : Type} (key : R -> option K) (df : list R) (k : K) :
  In k (dropna_keys key df) <-> exists r, In r df /\ key r = Some k.
Proof.
  unfold dropna_keys. rewrite in_flat_map. split.
  - intros [r [Hr Hk]]. exists r. split; [exact Hr|].
    destruct (key r); simpl in Hk; [destruct Hk as [->|[]]; reflexivity | contradiction].
  - intros [r [Hr Hk]]. exists r. split; [exact Hr|]. rewrite Hk. now left.
Qed.

Lemma In_group_keys {R : Type} (key : R -> option K) (df : list R) (k : K) :
  In k (group_keys K_dec K_leb key df) <-> exists r, In r df /\ key r = Some k.
Proof.
  unfold group_keys. now rewrite In_sort, nodup_In, In_dropna_keys.
Qed.

Lemma NoDup_group_keys {R : Type} (key : R -> option K) (df : list R) :
  NoDup (group_keys K_dec K_leb key df).
Proof. apply NoDup_sort, NoDup_nodup. Qed.

Lemma In_group {R : Type} (key : R -> option K) (df : list R) (k : K) (r : R) :
  In r (group K_dec key df k) <-> In r df /\ key r = Some k.
Proof.
  unfold group. rewrite filter_In. split; intros [H1 H2]; split; trivial.
  - destruct (key r); [|discriminate]. apply keqb_true in H2. now subst.
  - rewrite H2. apply keqb_refl.
Qed.

Lemma group_nil {R : Type} (key : R -> option K) (df : list R) (k : K) :
  ~ In k (group_keys K_dec K_leb key df) -> group K_dec key df k = [].
Proof.
  intro H. destruct (group K_dec key df k) as [|r g] eqn:E; [reflexivity|].
  exfalso. apply H. apply In_group_keys. exists r.
  apply (In_group key df k r). rewrite E. now left.
Qed.

Lemma group_filter {R : Type} (key : R -> option K) (p : R -> bool)
    (df : list R) (k : K) :
  group K_dec key (filter p df) k = filter p (group K_dec key df k).
Proof.
  unfold group. induction df as [|r df IH]; simpl; [reflexivity|].
  destruct (p r) eqn:Hp; simpl.
  - destruct (match key r with Some k' => keqb K_dec k' k | None => false end);
      simpl; rewrite ?Hp, IH; reflexivity.
  - destruct (match key r with Some k' => keqb K_dec k' k | None => false end);
      simpl; rewrite ?Hp, IH; reflexivity.
Qed.

Lemma groupby_keys {R V : Type} (key : R -> option K) (agg : list R -> V)
    (df : list R) :
  map fst (groupby K_dec K_leb key agg df) = group_keys K_dec K_leb key df.
Proof.
  unfold groupby. rewrite map_map. simpl. apply map_id.
Qed.

(** The rows of a key in a frame with one row per key. *)
Lemma matches_map {R : Type} (kr : R -> K) (f : K -> R) (ks : list K) (k : K) :
  (forall k', kr (f k') = k') -> NoDup ks ->
  matches K_dec kr (map f ks) k = if in_dec K_dec k ks then [f k] else [].
Proof.
  intros Hk Hnd. unfold matches.
  induction Hnd as [|a ks Ha Hnd IH]; simpl; [reflexivity|].
  rewrite Hk, IH. unfold keqb.
  destruct (K_dec a k) as [->|Hne].
  - destruct (K_dec k k) as [_|C]; [|contradiction].
    destruct (in_dec K_dec k ks); [contradiction|reflexivity].
  - destruct (K_dec a k) as [C|_]; [contradiction|].
    destruct (in_dec K_dec k ks); reflexivity.
Qed.

Lemma flat_map_single {A B : Type} (f : A -> list B) (g : A -> B) (l : list A) :
  (forall a, In a l -> f a = [g a]) -> flat_map f l = map g l.
Proof.
  induction l as [|a l IH]; simpl; intro H; [reflexivity|].
  rewrite (H a) by now left. simpl. f_equal. apply IH.
  intros b Hb. apply H. now right.
Qed.

(** A left merge with a frame of one row per key keeps the left rows. *)
Lemma merge_left_map {L R : Type} (kl : L -> K) (kr : R -> K) (f : K -> R)
    (left : list L) (ks : list K) :
  (forall k', kr (f k') = k') -> NoDup ks ->
  merge_left K_dec kl kr left (map f ks)
  = map (fun l => (l, if in_dec K_dec (kl l) ks then Some (f (kl l)) else None))
        left.
Proof.
  intros Hk Hnd. unfold merge_left. apply flat_map_single.
  intros l _. rewrite (matches_map kr f ks (kl l) Hk Hnd).
  destruct (in_dec K_dec (kl l) ks); reflexivity.
Qed.

(** An outer merge of two frames of one row per key has one row per key of
    either. *)
Lemma merge_outer_map {L R : Type} (kl : L -> K) (kr : R -> K)
    (f : K -> L) (g : K -> R) (ks1 ks2 : list K) :
  (forall k', kl (f k') = k') -> (forall k', kr (g k') = k') ->
  NoDup ks1 -> NoDup ks2 ->
  merge_outer K_dec K_leb kl kr (map f ks1) (map g ks2)
  = map (fun k => (k,
                   if in_dec K_dec k ks1 then Some (f k) else None,
                   if in_dec K_dec k ks2 then Some (g k) else None))
        (sort K_leb (nodup K_dec (ks1 ++ ks2))).
Proof.
  intros Hf Hg H1 H2. unfold merge_outer.
  rewrite !map_map.
  rewrite (map_ext (fun x => kl (f x)) (fun x => x) Hf), map_id.
  rewrite (map_ext (fun x => kr (g x)) (fun x => x) Hg), map_id.
  apply flat_map_single. intros k Hin.
  apply In_sort, nodup_In, in_app_iff in Hin.
  rewrite (matches_map kl f ks1 k Hf H1), (matches_map kr g ks2 k Hg H2).
  destruct (in_dec K_dec k ks1), (in_dec K_dec k ks2); simpl; try reflexivity.
  tauto.
Qed.

End FrameFacts.

(* ------------------------------------------------------------------ *)
(** * The frames of the run                                            *)
(* ------------------------------------------------------------------ *)

Lemma day_key_week_key (r : row) (dk : DayKey) :
  day_key r = Some dk -> week_key r = Some (fst dk).
Proof.
  unfold day_key, week_key. destruct (Date (cols r)); [|discriminate].
  intro H. injection H as <-. reflexivity.
Qed.

(** A merged sum column after [fillna(0)] is the sum of the group, which is
    empty where the merge found no row. *)
Lemma fillna0_merged_sum {K R : Type} (K_dec : forall a b : K, {a = b} + {a <> b})
    (K_leb : K -> K -> bool) (key : R -> option K) (f : R -> num)
    (df : list R) (k : K) :
  Num.fillna0
    (col (if in_dec K_dec k (group_keys K_dec K_leb key df)
          then Some (k, Num.sum (map f (group K_dec key df k))) else None))
  = Num.sum (map f (group K_dec key df k)).
Proof.
  destruct (in_dec K_dec k (group_keys K_dec K_leb key df)) as [Hin|Hout]; simpl.
  - reflexivity.
  - now rewrite (group_nil K_dec K_leb key df k Hout).
Qed.

(** [daily] has one row per day with an entry. *)
Lemma daily_eq (df : list row) : daily df = map (daily_at df) (day_keys df).
Proof.
  unfold daily, daily_total, daily_reg, daily_ot, weekly_avg_reg, groupby.
  rewrite (merge_left_map DayKey_dec fst fst
             (fun k => (k, sum_Hours (group DayKey_dec day_key (filter (pay_code_is "regular") df) k))))
    by (auto; apply NoDup_group_keys).
  rewrite (merge_left_map DayKey_dec (fun x => fst (fst x)) fst
             (fun k => (k, sum_Hours (group DayKey_dec day_key (filter (pay_code_is "overtime") df) k))))
    by (auto; apply NoDup_group_keys).
  rewrite (merge_left_map WeekKey_dec (fun x => fst (fst (fst (fst x)))) fst
             (fun k => (k, Num.mean (map (fun r => Regular_Hours (cols r))
                                         (group WeekKey_dec week_key df k)))))
    by (auto; apply NoDup_group_keys).
  rewrite !map_map. apply map_ext_in. intros dk Hdk. cbn [fst snd].
  unfold daily_of, daily_at, day_rows, week_rows, is_regular, is_overtime,
    sum_Hours. cbn [fst snd].
  rewrite !fillna0_merged_sum.
  apply In_group_keys in Hdk. destruct Hdk as [r [Hr Hk]].
  destruct (in_dec WeekKey_dec (fst dk) (group_keys WeekKey_dec WeekKey_leb week_key df))
    as [_|Hout]; [reflexivity|].
  exfalso. apply Hout. apply In_group_keys. exists r. split; [exact Hr|].
  now apply day_key_week_key.
Qed.

(** [weekly_agg] has one row per week with an entry coded "regular" or
    "overtime". *)
Lemma weekly_agg_eq (df : list row) :
  weekly_agg df (daily df) = map (weekly_at df) (paid_week_keys df).
Proof.
  unfold weekly_agg, reg_week, ot_week, weekly_proj_ot, groupby.
  rewrite (merge_outer_map WeekKey_dec WeekKey_leb fst fst
             (fun k => (k, sum_Hours (group WeekKey_dec week_key (filter (pay_code_is "regular") df) k)))
             (fun k => (k, sum_Hours (group WeekKey_dec week_key (filter (pay_code_is "overtime") df) k))))
    by (auto; apply NoDup_group_keys).
  rewrite (merge_left_map WeekKey_dec (fun x => fst (fst x)) fst
             (fun k => (k, Num.sum (map Proj_OT
                                        (group WeekKey_dec (fun d => Some (fst (day d))) (daily df) k)))))
    by (auto; apply NoDup_group_keys).
  rewrite !map_map. apply map_ext_in. intros k Hk. cbn [fst snd].
  unfold weekly_of, weekly_at, week_rows, week_days, is_regular, is_overtime,
    sum_Hours.
  rewrite !fillna0_merged_sum. reflexivity.
Qed.

(** ** The pivot *)

Lemma has_column_In (c : string) (cs : list string) :
  has_column c cs = true <-> In c cs.
Proof.
  unfold has_column. rewrite existsb_exists. split.
  - intros [x [Hx He]]. apply String.eqb_eq in He. now subst.
  - intro H. exists c. split; [exact H | apply String.eqb_refl].
Qed.

Lemma has_column_notin (c : string) (cs : list string) :
  has_column c cs = false <-> ~ In c cs.
Proof.
  rewrite <- has_column_In. destruct (has_column c cs); split; congruence.
Qed.

Lemma pivot_table_eq (df : list row) :
  pivot_table (daily df)
  = {| pivot_columns := pivot_cols df;
       pivot_rows := map (fun k => (k, map (pivot_cell df k) (pivot_cols df)))
                         (report_index df) |}.
Proof.
  unfold pivot_table, groupby, pivot_cols, report_index.
  fold (pivot_keys df). rewrite !map_map. cbn [fst snd].
  f_equal. apply map_ext. intro k. f_equal. apply map_ext. intro c.
  rewrite (matches_map CellKey_dec fst
             (fun ck => (ck, first (map Day_Info (group CellKey_dec cell_key (daily df) ck)))))
    by (auto; apply NoDup_group_keys).
  unfold pivot_cell. destruct (in_dec CellKey_dec (k, c) (pivot_keys df)); reflexivity.
Qed.

Lemma add_missing_days_fold (days : list string) (p : pivot_frame) :
  NoDup days ->
  fold_left (fun p d =>
               if has_column d (pivot_columns p) then p
               else {| pivot_columns := pivot_columns p ++ [d];
                       pivot_rows :=
                         map (fun r => (fst r, snd r ++ [Str ""]))
                             (pivot_rows p) |})
            days p
  = {| pivot_columns := pivot_columns p ++ missing_days (pivot_columns p) days;
       pivot_rows :=
         map (fun r => (fst r,
                        snd r ++ map (fun _ => Str "")
                                     (missing_days (pivot_columns p) days)))
             (pivot_rows p) |}.
Proof.
  intro Hnd. revert p. induction Hnd as [|d days Hd Hnd IH]; intro p; simpl.
  - rewrite app_nil_r. destruct p as [cs rs]; simpl. f_equal.
    rewrite <- (map_id rs) at 1. apply map_ext. intros [k v]; simpl.
    now rewrite app_nil_r.
  - destruct (has_column d (pivot_columns p)) eqn:Hc; simpl.
    + apply IH.
    + rewrite IH. simpl.
      assert (Hm : missing_days (pivot_columns p ++ [d]) days
                   = missing_days (pivot_columns p) days).
      { unfold missing_days. apply filter_ext_in. intros x Hx. f_equal.
        unfold has_column. rewrite existsb_app. simpl.
        destruct (String.eqb_spec x d) as [->|_]; [contradiction|].
        now rewrite !orb_false_r. }
      rewrite Hm, <- app_assoc. simpl. f_equal.
      rewrite map_map. apply map_ext. intros [k v]; simpl.
      now rewrite <- app_assoc.
Qed.

Lemma NoDup_day_order : NoDup day_order.
Proof.
  unfold day_order.
  repeat (constructor; [simpl; intuition discriminate|]). constructor.
Qed.

Lemma add_missing_days_eq (p : pivot_frame) :
  add_missing_days p
  = {| pivot_columns := pivot_columns p ++ missing_days (pivot_columns p) day_order;
       pivot_rows :=
         map (fun r => (fst r,
                        snd r ++ map (fun _ => Str "")
                                     (missing_days (pivot_columns p) day_order)))
             (pivot_rows p) |}.
Proof. apply add_missing_days_fold, NoDup_day_order. Qed.

(** ** The report *)

Lemma cell_app_l (cs cs' : list string) (vs vs' : list value) (c : string) :
  List.length cs = List.length vs -> has_column c cs = true ->
  cell (cs ++ cs') (vs ++ vs') c = cell cs vs c.
Proof.
  revert vs. induction cs as [|x cs IH]; intros [|v vs] Hl Hc; simpl in *;
    try discriminate.
  rewrite String.eqb_sym. destruct (String.eqb c x); [reflexivity|].
  apply IH; [lia | exact Hc].
Qed.

Lemma cell_app_r (cs cs' : list string) (vs vs' : list value) (c : string) :
  List.length cs = List.length vs -> has_column c cs = false ->
  cell (cs ++ cs') (vs ++ vs') c = cell cs' vs' c.
Proof.
  revert vs. induction cs as [|x cs IH]; intros [|v vs] Hl Hc; simpl in *;
    try discriminate; [reflexivity|].
  rewrite String.eqb_sym. destruct (String.eqb c x); [discriminate|].
  apply IH; [lia | exact Hc].
Qed.

Lemma cell_map (f : string -> value) (cs : list string) (c : string) :
  has_column c cs = true -> cell cs (map f cs) c = Some (f c).
Proof.
  induction cs as [|x cs IH]; simpl; [discriminate|].
  intro H. destruct (String.eqb_spec x c) as [->|Hne]; [reflexivity|].
  apply IH. destruct (String.eqb_spec c x) as [->|_]; [contradiction | exact H].
Qed.

Lemma find_all_false {A : Type} (p : A -> bool) (l : list A) :
  (forall x, In x l -> p x = false) -> find p l = None.
Proof.
  induction l as [|a l IH]; simpl; intro H; [reflexivity|].
  rewrite (H a) by now left. apply IH. intros x Hx. apply H. now right.
Qed.

Lemma weekday_range (d : Z) : 0 <= weekday d < 7.
Proof. unfold weekday. apply Z.mod_pos_bound. lia. Qed.

Lemma day_name_is_day (d : Z) : In (day_name d) day_order.
Proof.
  unfold day_name. pose proof (weekday_range d) as H.
  assert (Hn : (Z.to_nat (weekday d) < 7)%nat) by lia.
  destruct (Z.to_nat (weekday d)) as [|[|[|[|[|[|[|n]]]]]]]; simpl; try tauto.
  lia.
Qed.

Lemma In_pivot_keys (df : list row) (k : WeekKey) (c : string) :
  In (k, c) (pivot_keys df)
  <-> exists dk, In dk (day_keys df) /\ fst dk = k /\ day_name (snd dk) = c.
Proof.
  unfold pivot_keys. rewrite In_group_keys, daily_eq. split.
  - intros [d [Hd Hk]]. apply in_map_iff in Hd. destruct Hd as [dk [<- Hdk]].
    exists dk. unfold cell_key in Hk. simpl in Hk. injection Hk as <- <-. auto.
  - intros [dk [Hdk [<- <-]]]. exists (daily_at df dk). split.
    + now apply in_map.
    + reflexivity.
Qed.

Lemma pivot_cols_days (df : list row) (c : string) :
  In c (pivot_cols df) -> In c day_order.
Proof.
  unfold pivot_cols. rewrite In_sort, nodup_In, in_map_iff.
  intros [[k c'] [<- H]]. apply In_pivot_keys in H.
  destruct H as [dk [_ [_ <-]]]. apply day_name_is_day.
Qed.

Lemma missing_days_days (cs : list string) (c : string) :
  In c (missing_days cs day_order) <-> In c day_order /\ has_column c cs = false.
Proof.
  unfold missing_days. rewrite filter_In, negb_true_iff. tauto.
Qed.

(** The cell of a weekday in a merged row. *)
Lemma cell_weekday (df : list row) (k : WeekKey) (cs' : list string)
    (vs' : list value) (c : string) :
  In c day_order ->
  cell ((pivot_cols df ++ missing_days (pivot_cols df) day_order) ++ cs')
       ((map (pivot_cell df k) (pivot_cols df)
         ++ map (fun _ => Str "") (missing_days (pivot_cols df) day_order)) ++ vs')
       c
  = Some (day_cell df k c).
Proof.
  intro Hc. unfold day_cell.
  destruct (has_column c (pivot_cols df)) eqn:E.
  - rewrite <- !app_assoc.
    rewrite cell_app_l by (rewrite ?length_map; auto).
    now apply cell_map.
  - assert (Hm : has_column c (missing_days (pivot_cols df) day_order) = true)
      by (apply has_column_In, missing_days_days; auto).
    rewrite cell_app_l.
    + rewrite cell_app_r by (rewrite ?length_map; auto).
      now rewrite (cell_map (fun _ => Str "")).
    + now rewrite !length_app, !length_map.
    + unfold has_column in *. rewrite existsb_app, Hm. apply orb_true_r.
Qed.

(** The cell of a weekly column in a merged row. *)
Lemma cell_weekly (df : list row) (k : WeekKey) (w : option weekly_row) (c : string) :
  In c weekly_columns ->
  cell ((pivot_cols df ++ missing_days (pivot_cols df) day_order) ++ weekly_columns)
       ((map (pivot_cell df k) (pivot_cols df)
         ++ map (fun _ => Str "") (missing_days (pivot_cols df) day_order))
        ++ weekly_cells w)
       c
  = cell weekly_columns (weekly_cells w) c.
Proof.
  intro Hc. apply cell_app_r.
  - now rewrite !length_app, !length_map.
  - apply has_column_notin. rewrite in_app_iff. intros [H|H].
    + apply pivot_cols_days in H. revert H.
      simpl in Hc. decompose [or] Hc; subst; simpl; intuition discriminate.
    + apply missing_days_days in H. destruct H as [H _]. revert H.
      simpl in Hc. decompose [or] Hc; subst; simpl; intuition discriminate.
Qed.

Lemma NoDup_paid_week_keys (df : list row) : NoDup (paid_week_keys df).
Proof. apply NoDup_sort, NoDup_nodup. Qed.

Lemma cell_skip_keys (k : WeekKey) (cs : list string) (vs : list value) (c : string) :
  In c (day_order ++ weekly_columns) ->
  cell (["Location"; "EmpID"; "Week Start"]%string ++ cs) (key_cells k ++ vs) c
  = cell cs vs c.
Proof.
  intro Hc. destruct k as [[l e] w]. apply cell_app_r; [reflexivity|].
  apply has_column_notin. intro H.
  cbv [day_order weekly_columns app] in Hc. cbv [In] in Hc, H.
  decompose [or] Hc; subst; decompose [or] H; try discriminate; contradiction.
Qed.

Lemma report_eq (df : list row) :
  select final_cols
         (merge_report (add_missing_days (pivot_table (daily df)))
                       (weekly_agg df (daily df)))
  = Returns {| columns := final_cols;
               data := map (report_row df) (report_index df) |}.
Proof.
  rewrite pivot_table_eq, add_missing_days_eq, weekly_agg_eq.
  unfold merge_report. cbn [pivot_columns pivot_rows].
  rewrite (merge_left_map WeekKey_dec fst week (weekly_at df))
    by (auto using NoDup_paid_week_keys).
  rewrite !map_map. unfold select. cbn [columns data fst snd].
  rewrite find_all_false.
  - f_equal. f_equal. rewrite map_map. apply map_ext. intro k.
    unfold final_cols, report_row. rewrite !map_app.
    f_equal; [|f_equal].
    + destruct k as [[l e] w]. reflexivity.
    + apply map_ext_in. intros c Hc.
      rewrite cell_skip_keys by (apply in_app_iff; now left).
      now rewrite cell_weekday.
    + transitivity (map (fun c => match cell weekly_columns
                                          (weekly_cells
                                             (if in_dec WeekKey_dec k (paid_week_keys df)
                                              then Some (weekly_at df k) else None)) c with
                                  | Some v => v
                                  | None => Null
                                  end) weekly_columns).
      * apply map_ext_in. intros c Hc.
        rewrite cell_skip_keys by (apply in_app_iff; now right).
        now rewrite cell_weekly.
      * destruct (in_dec WeekKey_dec k (paid_week_keys df)); reflexivity.
  - intros c Hc. apply negb_false_iff, has_column_In.
    unfold final_cols in Hc. rewrite !in_app_iff in Hc.
    rewrite !in_app_iff.
    destruct Hc as [Hc|[Hc|Hc]].
    + left. cbv [In] in *. tauto.
    + right. left.
      destruct (has_column c (pivot_cols df)) eqn:E.
      * left. now apply has_column_In.
      * right. apply missing_days_days. auto.
    + right. right. exact Hc.
Qed.

(** ** The run *)

Lemma add_week_start_cons (e : entry) (df : list entry) :
  add_week_start (e :: df)
  = match Date e with
    | Some d => rows <- add_week_start df ;; Returns (dated e d :: rows)
    | None => Raises (AttributeError "start_time")
    end.
Proof.
  unfold add_week_start. simpl. destruct (Date e); reflexivity.
Qed.

(** Line 74 returns exactly when every entry has a date. *)
Lemma add_week_start_Returns (df : list entry) (rows : list row) :
  add_week_start df = Returns rows
  <-> (forall e, In e df -> Date e <> None) /\ rows = stamped df.
Proof.
  revert rows. induction df as [|e df IH]; intro rows.
  - simpl. split.
    + intro H. injection H as <-. split; [intros e []|reflexivity].
    + intros [_ ->]. reflexivity.
  - rewrite add_week_start_cons. simpl stamped.
    destruct (Date e) as [d|] eqn:Hd.
    + destruct (add_week_start df) as [rows'|x] eqn:Hr; simpl.
      * destruct (proj1 (IH rows') eq_refl) as [Hall ->]. split.
        -- intro H. injection H as <-. split; [|reflexivity].
           intros e' [<-|He']; [congruence | now apply Hall].
        -- intros [_ ->]. reflexivity.
      * split; [discriminate|]. intros [Hall ->]. exfalso.
        assert (H : Raises x = Returns (stamped df)); [|discriminate].
        apply IH. split; [|reflexivity]. intros e' He'. apply Hall. now right.
    + split; [discriminate|]. intros [Hall _]. exfalso.
      apply (Hall e); [now left | exact Hd].
Qed.

(** A missing date makes line 74 raise. *)
Lemma add_week_start_Raises (df : list entry) :
  (exists e, In e df /\ Date e = None)
  -> add_week_start df = Raises (AttributeError "start_time").
Proof.
  induction df as [|e df IH]; intros [e' [He' Hd]]; [destruct He'|].
  rewrite add_week_start_cons. destruct (Date e) as [d|] eqn:E; [|reflexivity].
  rewrite IH; [reflexivity|]. destruct He' as [->|He']; [congruence|].
  now exists e'.
Qed.

Lemma In_stamped (df : list entry) (r : row) :
  In r (stamped df)
  <-> exists e d, In e df /\ Date e = Some d /\ r = dated e d.
Proof.
  unfold stamped. rewrite in_flat_map. split.
  - intros [e [He Hr]]. destruct (Date e) as [d|] eqn:Hd; [|destruct Hr].
    destruct Hr as [<-|[]]. now exists e, d.
  - intros [e [d [He [Hd ->]]]]. exists e. split; [exact He|].
    rewrite Hd. now left.
Qed.

(** The report of a run that returns. *)
Lemma generate_timecard_report_Returns (df : list entry) (rep : frame) :
  generate_timecard_report df = Returns rep
  <-> (forall e, In e df -> Date e <> None)
      /\ rep = {| columns := final_cols;
                  data := map (report_row (stamped df))
                              (report_index (stamped df)) |}.
Proof.
  unfold generate_timecard_report.
  destruct (add_week_start df) as [rows|x] eqn:Hr.
  - apply add_week_start_Returns in Hr. destruct Hr as [Hall ->].
    cbn [bind]. rewrite report_eq. split.
    + intro H. injection H as <-. auto.
    + intros [_ ->]. reflexivity.
  - cbn [bind]. split; [discriminate|]. intros [Hall _]. exfalso.
    assert (H : Returns (stamped df) = Raises x); [|discriminate].
    rewrite <- Hr. symmetry. now apply add_week_start_Returns.
Qed.

(* ------------------------------------------------------------------ *)
(** * Properties of the aggregates                                     *)
(* ------------------------------------------------------------------ *)

Lemma In_daily (df : list row) (d : daily_row) :
  In d (daily df) <-> exists dk, In dk (day_keys df) /\ d = daily_at df dk.
Proof.
  rewrite daily_eq, in_map_iff. split; intros [dk [H1 H2]]; exists dk; auto.
Qed.

Lemma In_weekly_agg (df : list row) (w : weekly_row) :
  In w (weekly_agg df (daily df))
  <-> exists k, In k (paid_week_keys df) /\ w = weekly_at df k.
Proof.
  rewrite weekly_agg_eq, in_map_iff. split; intros [k [H1 H2]]; exists k; auto.
Qed.

Lemma gt_true (x y : Q) : negb (Qle_bool x y) = true <-> (y < x)%Q.
Proof.
  rewrite negb_true_iff. split.
  - intro H. apply Qnot_le_lt. intro C. apply Qle_bool_iff in C. congruence.
  - intro H. destruct (Qle_bool x y) eqn:E; [|reflexivity].
    apply Qle_bool_iff in E. exfalso. now apply (Qlt_not_le y x).
Qed.

Lemma gt_false (x y : Q) : negb (Qle_bool x y) = false <-> (x <= y)%Q.
Proof.
  rewrite negb_false_iff. apply Qle_bool_iff.
Qed.

Lemma max0_nonneg (x : num) : Num.nonneg (Num.max0 x).
Proof.
  unfold Num.max0, Num.gt. destruct x as [q|]; simpl.
  - destruct (negb (Qle_bool q 0)) eqn:E; simpl.
    + apply gt_true in E. now apply Qlt_le_weak.
    + apply Qle_refl.
  - apply Qle_refl.
Qed.


Lemma total_nonneg (l : list Q) :
  (forall x, In x l -> (0 <= x)%Q) -> (0 <= Num.total l)%Q.
Proof.
  induction l as [|x l IH]; cbn [Num.total]; intro H.
  - apply Qle_refl.
  - assert (0 <= x)%Q by (apply H; now left).
    assert (0 <= Num.total l)%Q by (apply IH; intros y Hy; apply H; now right).
    lra.
Qed.

Lemma In_present (l : list num) (x : Q) : In x (Num.present l) <-> In (Some x) l.
Proof.
  induction l as [|[y|] l IH]; simpl.
  - tauto.
  - rewrite IH. split; intros [H|H]; auto; left; congruence.
  - rewrite IH. split; [auto|]. intros [H|H]; [discriminate | exact H].
Qed.

Lemma sum_nonneg (l : list num) :
  (forall a, In a l -> Num.nonneg a) -> Num.nonneg (Num.sum l).
Proof.
  intro H. unfold Num.sum. simpl. apply total_nonneg.
  intros x Hx. apply In_present in Hx. exact (H _ Hx).
Qed.

Lemma Proj_OT_nonneg (df : list row) (d : daily_row) :
  In d (daily df) -> Num.nonneg (Proj_OT d).
Proof.
  intro H. apply In_daily in H. destruct H as [dk [_ ->]].
  apply max0_nonneg.
Qed.

Lemma Weekly_Proj_OT_nonneg (df : list row) (k : WeekKey) :
  Num.nonneg (Num.sum (map Proj_OT (week_days df k))).
Proof.
  apply sum_nonneg. intros a Ha. apply in_map_iff in Ha.
  destruct Ha as [d [<- Hd]]. apply (Proj_OT_nonneg df).
  unfold week_days in Hd. now apply In_group in Hd.
Qed.

(** The rule of [compute_ot_owed] on numbers. *)
Lemma compute_ot_owed_rule (total paid proj : Q) :
  exists owed,
    compute_ot_owed (Some total) (Some paid) (Some proj) = Some owed
    /\ (total <= 40 -> owed == proj)%Q
    /\ (40 < total -> 0 < paid - proj -> owed == 0)%Q
    /\ (40 < total -> paid - proj <= 0 -> owed == proj - paid)%Q.
Proof.
  unfold compute_ot_owed, Num.le, Num.sub, Num.gt, Num.abs.
  destruct (Qle_bool total 40) eqn:Ht.
  - apply Qle_bool_iff in Ht. exists proj. split; [reflexivity|].
    repeat split; intros; try reflexivity; lra.
  - assert (Hgt : (40 < total)%Q).
    { apply Qnot_le_lt. intro C. apply Qle_bool_iff in C. congruence. }
    destruct (negb (Qle_bool (paid - proj) 0)) eqn:Hd.
    + apply gt_true in Hd. exists 0%Q. split; [reflexivity|].
      repeat split; intros; try reflexivity; lra.
    + apply gt_false in Hd. exists (Qabs (paid - proj)). split; [reflexivity|].
      repeat split; intros; try lra.
      rewrite Qabs_neg by exact Hd. lra.
Qed.

(** C1.  For every row of [weekly_agg], [Overtime Owed] follows the
    piecewise rule: with Weekly Total Hours at most 40 (40 included) it is
    Weekly Proj OT; above 40, with diff = Weekly OT Paid - Weekly Proj OT, it
    is 0 when diff > 0 and Weekly Proj OT - Weekly OT Paid when diff <= 0. *)
Theorem C1_overtime_owed_piecewise (df : list row) (w : weekly_row) :
  In w (weekly_agg df (daily df)) ->
  exists total paid proj owed : Q,
    Weekly_Total_Hours w = Some total
    /\ Weekly_OT_Paid w = Some paid
    /\ Weekly_Proj_OT w = Some proj
    /\ Overtime_Owed w = Some owed
    /\ (total <= 40 -> owed == proj)%Q
    /\ (40 < total -> 0 < paid - proj -> owed == 0)%Q
    /\ (40 < total -> paid - proj <= 0 -> owed == proj - paid)%Q.
Proof.
  intro H. apply In_weekly_agg in H. destruct H as [k [_ ->]].
  unfold weekly_at, sum_Hours, Num.sum. cbn [Weekly_Total_Hours Weekly_OT_Paid
    Weekly_Proj_OT Overtime_Owed Num.add].
  match goal with
  | |- context [compute_ot_owed (Some ?t) (Some ?p) (Some ?j)] =>
      destruct (compute_ot_owed_rule t p j) as [owed [Ho Hr]];
      exists t, p, j, owed
  end.
  repeat split; try reflexivity; try exact Ho; apply Hr.
Qed.

(** A run on [six_day_week]: 46 hours in total, 6 of them paid as overtime,
    none projected, nothing owed. *)
Lemma C1_overtime_owed_piecewise_witness :
  In (weekly_at (stamped six_day_week) six_day_week_key)
     (weekly_agg (stamped six_day_week) (daily (stamped six_day_week)))
  /\ exists total paid proj owed : Q,
      Weekly_Total_Hours (weekly_at (stamped six_day_week) six_day_week_key) = Some total
      /\ Weekly_OT_Paid (weekly_at (stamped six_day_week) six_day_week_key) = Some paid
      /\ Weekly_Proj_OT (weekly_at (stamped six_day_week) six_day_week_key) = Some proj
      /\ Overtime_Owed (weekly_at (stamped six_day_week) six_day_week_key) = Some owed
      /\ (total <= 40 -> owed == proj)%Q
      /\ (40 < total -> 0 < paid - proj -> owed == 0)%Q
      /\ (40 < total -> paid - proj <= 0 -> owed == proj - paid)%Q.
Proof.
  split.
  - vm_compute. left. reflexivity.
  - apply (C1_overtime_owed_piecewise (stamped six_day_week)).
    vm_compute. left. reflexivity.
Defined.

Lemma week_rows_filter (p : row -> bool) (df : list row) (k : WeekKey) :
  week_rows (filter p df) k = filter p (week_rows df k).
Proof. apply group_filter. Qed.

(** C4.  For every row of [weekly_agg], Weekly Total Hours is Weekly Regular
    Hours plus Weekly OT Paid, where the first sums the hours of the week's
    entries coded "regular" and the second those coded "overtime"; the
    daily Total_Hours sums the entries of every pay code. *)
Theorem C4_weekly_total_identity (df : list row) (w : weekly_row) :
  In w (weekly_agg df (daily df)) ->
  Weekly_Regular_Hours w = sum_Hours (filter is_regular (week_rows df (week w)))
  /\ Weekly_OT_Paid w = sum_Hours (filter is_overtime (week_rows df (week w)))
  /\ (exists reg paid : Q,
        Weekly_Regular_Hours w = Some reg
        /\ Weekly_OT_Paid w = Some paid
        /\ Weekly_Total_Hours w = Some (reg + paid)%Q)
  /\ (forall d, In d (daily df) -> Total_Hours d = sum_Hours (day_rows df (day d))).
Proof.
  intro H. apply In_weekly_agg in H. destruct H as [k [_ ->]].
  unfold weekly_at. cbn [Weekly_Regular_Hours Weekly_OT_Paid Weekly_Total_Hours week].
  rewrite !week_rows_filter. repeat split.
  - unfold sum_Hours, Num.sum. eexists. eexists. repeat split.
  - intros d Hd. apply In_daily in Hd. destruct Hd as [dk [_ ->]]. reflexivity.
Qed.

Lemma C4_weekly_total_identity_witness :
  In (weekly_at (stamped six_day_week) six_day_week_key)
     (weekly_agg (stamped six_day_week) (daily (stamped six_day_week)))
  /\ Weekly_Total_Hours (weekly_at (stamped six_day_week) six_day_week_key)
     = Some ((8 + (8 + (8 + (8 + (8 + 0))))) + (6 + 0))%Q.
Proof.
  split.
  - vm_compute. left. reflexivity.
  - destruct (C4_weekly_total_identity (stamped six_day_week)
                (weekly_at (stamped six_day_week) six_day_week_key))
      as [_ [_ [[reg [paid [Hr [Hp Ht]]]] _]]].
    + vm_compute. left. reflexivity.
    + rewrite Ht. injection Hr as <-. injection Hp as <-. reflexivity.
Defined.



Lemma In_weekly_avg_reg (df : list row) (k : WeekKey) (s : num) :
  In (k, s) (weekly_avg_reg df)
  <-> In k (week_keys df)
      /\ s = Num.mean (map (fun r => Regular_Hours (cols r)) (week_rows df k)).
Proof.
  unfold weekly_avg_reg, groupby. rewrite in_map_iff. split.
  - intros [k' [H Hk]]. injection H as -> <-. auto.
  - intros [Hk ->]. now exists k.
Qed.

Lemma mean_spec (l : list num) :
  match Num.mean l with
  | Some m => Num.present l <> []
              /\ (m * inject_Z (Z.of_nat (List.length (Num.present l)))
                  == Num.total (Num.present l))%Q
  | None => Num.present l = []
  end.
Proof.
  unfold Num.mean. destruct (Num.present l) as [|x xs]; [reflexivity|].
  split; [discriminate|].
  assert (Hn : ~ (inject_Z (Z.of_nat (List.length (x :: xs))) == 0)%Q).
  { unfold Qeq. simpl. lia. }
  field. exact Hn.
Qed.

(** C2, amended.  The scheduled hours of a week are the arithmetic mean of
    the Regular Hours of the week's entries, missing values left out, and
    every day of the week carries that value.  When every entry of the week
    has a missing value, the scheduled hours are missing (NaN) and the
    projected overtime of each of its days is 0. *)
Theorem C2_weekly_scheduled_mean (df : list row) (k : WeekKey) (s : num) :
  In (k, s) (weekly_avg_reg df) ->
  let vals := Num.present (map (fun r => Regular_Hours (cols r)) (week_rows df k)) in
  (forall d, In d (daily df) -> fst (day d) = k -> Sched_Reg d = s)
  /\ (vals <> [] ->
      exists m : Q, s = Some m
                    /\ (m * inject_Z (Z.of_nat (List.length vals))
                        == Num.total vals)%Q)
  /\ (vals = [] ->
      s = None
      /\ forall d, In d (daily df) -> fst (day d) = k -> Proj_OT d = Some 0%Q).
Proof.
  intros H vals. apply In_weekly_avg_reg in H. destruct H as [_ ->].
  pose proof (mean_spec (map (fun r => Regular_Hours (cols r)) (week_rows df k)))
    as Hm.
  fold vals in Hm.
  assert (Hd : forall d, In d (daily df) -> fst (day d) = k ->
                         Sched_Reg d
                         = Num.mean (map (fun r => Regular_Hours (cols r))
                                         (week_rows df k))
                         /\ Proj_OT d = Num.max0 (Num.sub (Total_Hours d) (Sched_Reg d))).
  { intros d Hin Hk. apply In_daily in Hin. destruct Hin as [dk [_ ->]].
    cbn [daily_at day] in Hk. subst k. split; reflexivity. }
  repeat split.
  - intros d Hin Hk. now apply Hd.
  - intro Hne. destruct (Num.mean _) as [m|]; [|contradiction].
    exists m. split; [reflexivity | apply Hm].
  - destruct (Num.mean _) as [m|]; [|reflexivity].
    destruct Hm as [Hne _]. contradiction.
  - intros d Hin Hk. destruct (Hd d Hin Hk) as [Hs ->]. rewrite Hs.
    destruct (Num.mean _) as [m|].
    + destruct Hm as [Hne _]. contradiction.
    + destruct (Total_Hours d); reflexivity.
Qed.

(** On [six_day_week] the mean of the six scheduled values is 48/6. *)
Lemma C2_weekly_scheduled_mean_witness :
  In (six_day_week_key, Some (48 # 6)%Q) (weekly_avg_reg (stamped six_day_week))
  /\ forall d, In d (daily (stamped six_day_week)) ->
               fst (day d) = six_day_week_key -> Sched_Reg d = Some (48 # 6)%Q.
Proof.
  split.
  - vm_compute. left. reflexivity.
  - apply (C2_weekly_scheduled_mean (stamped six_day_week) six_day_week_key).
    vm_compute. left. reflexivity.
Defined.

(** C2 as stated fails on [holiday_only]: the only entry of the week has no
    scheduled value; the week's scheduled hours are NaN, not 0, and the
    projected overtime of the day is 0, not its 5 hours. *)
Lemma C2_counterexample :
  weekly_avg_reg (stamped holiday_only) = [(holiday_only_key, None)]
  /\ daily (stamped holiday_only)
     = [{| day := (holiday_only_key, ymd 2024 3 12);
           Total_Hours := Some 5%Q;
           Reg := Some 0%Q;
           OT_Paid := Some 0%Q;
           Sched_Reg := None;
           Proj_OT := Some 0%Q |}]
  /\ ~ Num.same (Some 0%Q) (Some 5%Q).
Proof.
  split; [vm_compute; reflexivity|]. split; [vm_compute; reflexivity|].
  simpl. intro H. discriminate H.
Qed.

(** ** Week assignment *)

Lemma weekday_week_start (d : Z) : weekday (week_start d) = 6.
Proof.
  unfold week_start, to_period_W_SAT, weekday.
  Z.div_mod_to_equations. lia.
Qed.

Lemma weekday_week_end (d : Z) : weekday (week_start d + 6) = 5.
Proof.
  unfold week_start, to_period_W_SAT, weekday.
  Z.div_mod_to_equations. lia.
Qed.

Lemma week_start_range (d : Z) : week_start d <= d <= week_start d + 6.
Proof.
  unfold week_start, to_period_W_SAT, weekday.
  Z.div_mod_to_equations. lia.
Qed.

Lemma day_name_Sunday (d : Z) : day_name d = "Sunday"%string <-> weekday d = 6.
Proof.
  unfold day_name. pose proof (weekday_range d) as Hr. split.
  - intro H.
    assert (Hn : (Z.to_nat (weekday d) < 7)%nat) by lia.
    destruct (Z.to_nat (weekday d)) as [|[|[|[|[|[|[|n]]]]]]] eqn:E;
      simpl in H; try discriminate H; lia.
  - intros ->. reflexivity.
Qed.

Lemma week_start_of_Sunday (d : Z) : weekday d = 6 -> week_start d = d.
Proof.
  unfold week_start, to_period_W_SAT. intros ->.
  change ((5 - 6) mod 7) with 6. lia.
Qed.

(** The rows that line 74 returns. *)
Lemma Week_Start_of_row (df : list entry) (rows : list row) (r : row) :
  add_week_start df = Returns rows -> In r rows ->
  exists d : Z,
    In (cols r) df /\ Date (cols r) = Some d /\ Week_Start r = week_start d.
Proof.
  intros Hrun Hr. apply add_week_start_Returns in Hrun. destruct Hrun as [_ ->].
  apply In_stamped in Hr. destruct Hr as [e [d [He [Hd ->]]]].
  exists d. cbn [dated cols Week_Start]. auto.
Qed.

(** C6.  Line 74 gives every entry the week start of its own date: the
    Sunday on or before the date, which opens the week that ends on the
    Saturday six days later, and the date itself when it is a Sunday.  The
    value depends on the date alone: a row of any other run with the same
    date has the same week start. *)
Theorem C6_week_start_is_preceding_sunday (df : list entry) (rows : list row)
    (r : row) :
  add_week_start df = Returns rows -> In r rows ->
  exists d : Z,
    In (cols r) df
    /\ Date (cols r) = Some d
    /\ Week_Start r = week_start d
    /\ day_name (Week_Start r) = "Sunday"%string
    /\ day_name (Week_Start r + 6) = "Saturday"%string
    /\ Week_Start r <= d <= Week_Start r + 6
    /\ (day_name d = "Sunday"%string -> Week_Start r = d)
    /\ (forall df' rows' r',
          add_week_start df' = Returns rows' -> In r' rows' ->
          Date (cols r') = Some d -> Week_Start r' = Week_Start r).
Proof.
  intros Hrun Hr.
  destruct (Week_Start_of_row df rows r Hrun Hr) as [d [He [Hd Hw]]].
  exists d. rewrite Hw. repeat split; try assumption.
  - apply day_name_Sunday, weekday_week_start.
  - unfold day_name. now rewrite weekday_week_end.
  - apply week_start_range.
  - apply week_start_range.
  - intro Hs. apply week_start_of_Sunday. now apply day_name_Sunday.
  - intros df' rows' r' Hrun' Hr' Hd'.
    destruct (Week_Start_of_row df' rows' r' Hrun' Hr') as [d' [_ [Hd2 ->]]].
    congruence.
Qed.

(** Monday 2024-03-11 falls in the week that starts on Sunday
    2024-03-10. *)
Lemma C6_week_start_is_preceding_sunday_witness :
  add_week_start two_staff = Returns (stamped two_staff)
  /\ In (dated (entry_on (ymd 2024 3 11) 7 (Some 8%Q) "regular" "HQ" (Some 8%Q))
               (ymd 2024 3 11))
        (stamped two_staff)
  /\ exists d : Z,
      Week_Start (dated (entry_on (ymd 2024 3 11) 7 (Some 8%Q) "regular" "HQ"
                                  (Some 8%Q))
                        (ymd 2024 3 11)) = week_start d
      /\ week_start d = ymd 2024 3 10.
Proof.
  split; [vm_compute; reflexivity|]. split; [vm_compute; left; reflexivity|].
  destruct (C6_week_start_is_preceding_sunday two_staff (stamped two_staff)
              (dated (entry_on (ymd 2024 3 11) 7 (Some 8%Q) "regular" "HQ" (Some 8%Q))
                     (ymd 2024 3 11)))
    as [d [_ [Hd [Hw _]]]].
  - vm_compute. reflexivity.
  - vm_compute. left. reflexivity.
  - exists d. split; [exact Hw|]. cbn [dated cols entry_on Date] in Hd.
    injection Hd as <-. vm_compute. reflexivity.
Defined.

(** ** Missing values *)

(** An entry without hours stays in its group and adds nothing to the sum. *)
Lemma missing_hours_add_nothing (r : row) (g : list row) :
  Hours (cols r) = None -> sum_Hours (r :: g) = sum_Hours g.
Proof.
  intro H. unfold sum_Hours, Num.sum. cbn [map Num.present]. now rewrite H.
Qed.

Lemma missing_hours_keep_the_day (df : list row) (r : row) (dk : DayKey) :
  In r df -> day_key r = Some dk ->
  exists d, In d (daily df) /\ day d = dk.
Proof.
  intros Hr Hk. exists (daily_at df dk). split; [|reflexivity].
  apply In_daily. exists dk. split; [|reflexivity].
  apply In_group_keys. now exists r.
Qed.

(** A missing date makes the run raise at line 74. *)
Lemma missing_date_raises (df : list entry) :
  (exists e, In e df /\ Date e = None) ->
  generate_timecard_report df = Raises (AttributeError "start_time").
Proof.
  intro H. unfold generate_timecard_report.
  now rewrite (add_week_start_Raises df H).
Qed.

(** C5, on [with_missing_date].  The second entry has no date: the run raises
    [AttributeError] at line 74 and writes no report, where the claim has
    the entry left out and the other one reported. *)
Theorem C5_missing_date_aborts_the_run :
  generate_timecard_report with_missing_date
  = Raises (AttributeError "start_time").
Proof. vm_compute. reflexivity. Qed.

(* ------------------------------------------------------------------ *)
(** * Properties of the report                                         *)
(* ------------------------------------------------------------------ *)

Lemma week_key_dated (e : entry) (d : Z) :
  Date e = Some d -> week_key (dated e d) = entry_week e.
Proof. unfold week_key, entry_week. intros ->. reflexivity. Qed.

Lemma day_key_dated (e : entry) (d : Z) :
  Date e = Some d ->
  day_key (dated e d) = Some (Location e, EmpID e, week_start d, d).
Proof. unfold day_key. cbn [dated cols Week_Start]. intros ->. reflexivity. Qed.

Lemma In_day_keys_stamped (df : list entry) (k : WeekKey) (d : Z) :
  In (k, d) (day_keys (stamped df))
  <-> exists e, In e df /\ Date e = Some d /\ entry_week e = Some k.
Proof.
  unfold day_keys. rewrite In_group_keys. split.
  - intros [r [Hr Hk]]. apply In_stamped in Hr.
    destruct Hr as [e [d' [He [Hd ->]]]]. rewrite (day_key_dated e d' Hd) in Hk.
    injection Hk as <- <-. exists e. unfold entry_week. rewrite Hd. auto.
  - intros [e [He [Hd Hk]]]. exists (dated e d). split.
    + apply In_stamped. now exists e, d.
    + rewrite (day_key_dated e d Hd). unfold entry_week in Hk. rewrite Hd in Hk.
      now injection Hk as <-.
Qed.

Lemma In_pivot_keys_stamped (df : list entry) (k : WeekKey) (c : string) :
  In (k, c) (pivot_keys (stamped df)) <-> works_on df k c.
Proof.
  rewrite In_pivot_keys. unfold works_on. split.
  - intros [[k' d] [Hdk [Hk Hc]]]. cbn [fst snd] in Hk, Hc. subst k'.
    apply In_day_keys_stamped in Hdk. destruct Hdk as [e [He [Hd Hw]]].
    now exists e, d.
  - intros [e [d [He [Hd [Hw Hc]]]]]. exists (k, d). repeat split; [|exact Hc].
    apply In_day_keys_stamped. now exists e.
Qed.

Lemma pivot_col_stamped (df : list entry) (c : string) :
  has_column c (pivot_cols (stamped df)) = true <-> anyone_works_on df c.
Proof.
  rewrite has_column_In. unfold pivot_cols.
  rewrite In_sort, nodup_In, in_map_iff. unfold anyone_works_on. split.
  - intros [[k c'] [Hc H]]. cbn [snd] in Hc. subst c'.
    apply In_pivot_keys_stamped in H. destruct H as [e [d [He [Hd [_ Hc]]]]].
    now exists e, d.
  - intros [e [d [He [Hd Hc]]]].
    exists ((Location e, EmpID e, week_start d), c). split; [reflexivity|].
    apply In_pivot_keys_stamped. exists e, d. repeat split; try assumption.
    unfold entry_week. now rewrite Hd.
Qed.

Lemma In_report_index_stamped (df : list entry) (k : WeekKey) :
  In k (report_index (stamped df)) <-> exists e, In e df /\ entry_week e = Some k.
Proof.
  unfold report_index. rewrite In_sort, nodup_In, in_map_iff. split.
  - intros [[k' c] [Hk H]]. cbn [fst] in Hk. subst k'.
    apply In_pivot_keys_stamped in H. destruct H as [e [d [He [_ [Hw _]]]]].
    now exists e.
  - intros [e [He Hw]]. destruct (Date e) as [d|] eqn:Hd.
    + exists (k, day_name d). split; [reflexivity|].
      apply In_pivot_keys_stamped. now exists e, d.
    + unfold entry_week in Hw. rewrite Hd in Hw. discriminate.
Qed.

Lemma NoDup_report_index (df : list row) : NoDup (report_index df).
Proof. apply NoDup_sort, NoDup_nodup. Qed.

Lemma pay_code_is_dated (code : string) (e : entry) (d : Z) :
  pay_code_is code (dated e d) = true <-> Pay_Code e = Some code.
Proof.
  unfold pay_code_is. cbn [dated cols]. destruct (Pay_Code e) as [p|].
  - rewrite String.eqb_eq. split; congruence.
  - split; discriminate.
Qed.

Lemma In_week_keys_filter_stamped (code : string) (df : list entry) (k : WeekKey) :
  In k (week_keys (filter (pay_code_is code) (stamped df)))
  <-> exists e, In e df /\ entry_week e = Some k /\ Pay_Code e = Some code.
Proof.
  unfold week_keys. rewrite In_group_keys. split.
  - intros [r [Hr Hk]]. apply filter_In in Hr. destruct Hr as [Hr Hp].
    apply In_stamped in Hr. destruct Hr as [e [d [He [Hd ->]]]].
    rewrite (week_key_dated e d Hd) in Hk. apply pay_code_is_dated in Hp.
    now exists e.
  - intros [e [He [Hw Hp]]]. destruct (Date e) as [d|] eqn:Hd.
    + exists (dated e d). split.
      * apply filter_In. split; [|now apply pay_code_is_dated].
        apply In_stamped. now exists e, d.
      * now rewrite (week_key_dated e d Hd).
    + unfold entry_week in Hw. rewrite Hd in Hw. discriminate.
Qed.

Lemma In_paid_week_keys_stamped (df : list entry) (k : WeekKey) :
  In k (paid_week_keys (stamped df)) <-> has_paid_entry df k.
Proof.
  unfold paid_week_keys, is_regular, is_overtime, has_paid_entry.
  rewrite In_sort, nodup_In, in_app_iff, !In_week_keys_filter_stamped. split.
  - intros [[e [He [Hw Hp]]]|[e [He [Hw Hp]]]]; exists e; auto.
  - intros [e [He [Hw [Hp|Hp]]]]; [left|right]; now exists e.
Qed.

Lemma weekly_cells_length (w : option weekly_row) : List.length (weekly_cells w) = 5%nat.
Proof. destruct w; reflexivity. Qed.

Lemma report_row_length (df : list row) (k : WeekKey) :
  List.length (report_row df k) = 15%nat.
Proof.
  unfold report_row. rewrite !length_app, length_map, weekly_cells_length.
  reflexivity.
Qed.

Lemma report_row_key (df : list row) (k : WeekKey) : is_row_of k (report_row df k).
Proof. repeat split. Qed.

Lemma report_row_key_inj (df : list row) (k k' : WeekKey) :
  is_row_of k (report_row df k') -> k = k'.
Proof.
  destruct k as [[l e] w], k' as [[l' e'] w']. intros [H1 [H2 H3]].
  cbv in H1, H2, H3. congruence.
Qed.

Lemma not_key_column (c : string) :
  In c (day_order ++ weekly_columns) ->
  has_column c ["EmpID"; "Location"; "Week Start"]%string = false.
Proof.
  intro Hc. apply has_column_notin. intro H.
  cbv [day_order weekly_columns app In] in Hc, H.
  decompose [or] Hc; subst; decompose [or] H; try discriminate; contradiction.
Qed.

Lemma not_day_column (c : string) :
  In c weekly_columns -> has_column c day_order = false.
Proof.
  intro Hc. apply has_column_notin. intro H.
  cbv [day_order weekly_columns In] in Hc, H.
  decompose [or] Hc; subst; decompose [or] H; try discriminate; contradiction.
Qed.

Lemma report_cell_day (df : list row) (k : WeekKey) (c : string) :
  In c day_order -> report_cell (report_row df k) c = Some (day_cell df k c).
Proof.
  intro Hc. unfold report_cell, final_cols, report_row.
  rewrite cell_app_r
    by (try reflexivity; apply not_key_column, in_app_iff; now left).
  rewrite cell_app_l by (rewrite ?length_map; try reflexivity; now apply has_column_In).
  apply cell_map. now apply has_column_In.
Qed.

Lemma report_cell_weekly (df : list row) (k : WeekKey) (c : string) :
  In c weekly_columns ->
  report_cell (report_row df k) c
  = cell weekly_columns
         (weekly_cells (if in_dec WeekKey_dec k (paid_week_keys df)
                        then Some (weekly_at df k) else None)) c.
Proof.
  intro Hc. unfold report_cell, final_cols, report_row.
  rewrite cell_app_r
    by (try reflexivity; apply not_key_column, in_app_iff; now right).
  apply cell_app_r; [now rewrite length_map | now apply not_day_column].
Qed.

Lemma first_Day_Info (g : list daily_row) :
  g <> [] ->
  exists date t rg ot pj, first (map Day_Info g) = Info date t rg ot pj.
Proof.
  destruct g as [|d g]; [contradiction|]. intros _.
  unfold first. cbn [map Day_Info filter notnull]. now eexists _, _, _, _, _.
Qed.

(** The cell of a weekday in the report. *)
Lemma day_cell_cases (df : list entry) (k : WeekKey) (c : string) :
  (works_on df k c ->
   exists date t rg ot pj, day_cell (stamped df) k c = Info date t rg ot pj)
  /\ (~ works_on df k c -> anyone_works_on df c -> day_cell (stamped df) k c = Null)
  /\ (~ anyone_works_on df c -> day_cell (stamped df) k c = Str "").
Proof.
  unfold day_cell, pivot_cell. repeat split.
  - intro Hw.
    assert (Ha : has_column c (pivot_cols (stamped df)) = true).
    { apply pivot_col_stamped. destruct Hw as [e [d [He [Hd [_ Hc]]]]].
      now exists e, d. }
    rewrite Ha.
    destruct (in_dec CellKey_dec (k, c) (pivot_keys (stamped df))) as [Hin|Hout].
    + apply first_Day_Info. intro Hnil.
      unfold pivot_keys in Hin. apply In_group_keys in Hin.
      destruct Hin as [d [Hd Hk]].
      assert (Hg : In d (group CellKey_dec cell_key (daily (stamped df)) (k, c)))
        by now apply In_group.
      rewrite Hnil in Hg. destruct Hg.
    + exfalso. apply Hout. now apply In_pivot_keys_stamped.
  - intros Hn Ha. apply pivot_col_stamped in Ha. rewrite Ha.
    destruct (in_dec CellKey_dec (k, c) (pivot_keys (stamped df))) as [Hin|Hout];
      [|reflexivity].
    exfalso. apply Hn. now apply In_pivot_keys_stamped.
  - intro Hn. destruct (has_column c (pivot_cols (stamped df))) eqn:E; [|reflexivity].
    exfalso. apply Hn. now apply pivot_col_stamped.
Qed.

Lemma In_report_data (df : list entry) (rep : frame) (r : list value) :
  generate_timecard_report df = Returns rep ->
  (In r (data rep)
   <-> exists k, In k (report_index (stamped df)) /\ r = report_row (stamped df) k).
Proof.
  intro H. apply generate_timecard_report_Returns in H. destruct H as [_ ->].
  cbn [data]. rewrite in_map_iff. split; intros [k [H1 H2]]; exists k; auto.
Qed.

Lemma compute_ot_owed_nonneg (total paid proj : Q) :
  (0 <= proj)%Q ->
  Num.nonneg (compute_ot_owed (Some total) (Some paid) (Some proj)).
Proof.
  intro Hp. unfold compute_ot_owed, Num.le, Num.sub, Num.gt, Num.abs.
  destruct (Qle_bool total 40); [exact Hp|].
  destruct (negb (Qle_bool (paid - proj) 0)); cbn [Num.nonneg].
  - apply Qle_refl.
  - apply Qabs_nonneg.
Qed.

Lemma Overtime_Owed_nonneg (df : list row) (k : WeekKey) :
  Num.nonneg (Overtime_Owed (weekly_at df k)).
Proof.
  unfold weekly_at. cbn [Overtime_Owed]. unfold sum_Hours, Num.sum. cbn [Num.add].
  apply compute_ot_owed_nonneg.
  exact (Weekly_Proj_OT_nonneg df k).
Qed.

(** C3.  Overtime Owed is a number that is at least 0 in every row of
    [weekly_agg] ([Overtime_Owed_nonneg]), but not in every row of the
    report.  On [holiday_overtime] the day has 2 projected overtime hours and
    line 133 sums them to a Weekly Proj OT of 2 for the week; [weekly_agg]
    has no row for the week, because no entry is coded "regular" or
    "overtime", so the left merge of line 135 drops that sum and the merge of
    line 154 leaves the five weekly cells of the report row null: Overtime
    Owed is null, not a number. *)
Theorem C3_overtime_owed_null_in_report :
  generate_timecard_report holiday_overtime
  = Returns
      {| columns := final_cols;
         data := [[Int 8; Str "HQ"; Time (ymd 2024 3 10);
                   Str ""; Str "";
                   Info (ymd 2024 3 12) (Some 10%Q) (Some 0%Q) (Some 0%Q) (Some 2%Q);
                   Str ""; Str ""; Str ""; Str "";
                   Null; Null; Null; Null; Null]] |}
  /\ report_cell [Int 8; Str "HQ"; Time (ymd 2024 3 10);
                  Str ""; Str "";
                  Info (ymd 2024 3 12) (Some 10%Q) (Some 0%Q) (Some 0%Q) (Some 2%Q);
                  Str ""; Str ""; Str ""; Str "";
                  Null; Null; Null; Null; Null] "Overtime Owed"
     = Some Null
  /\ weekly_proj_ot (daily (stamped holiday_overtime))
     = [(("HQ"%string, 8, ymd 2024 3 10), Some 2%Q)]
  /\ weekly_agg (stamped holiday_overtime) (daily (stamped holiday_overtime)) = [].
Proof. repeat split; vm_compute; reflexivity. Qed.

(** The columns of the report are exactly [final_cols], with the seven
    weekdays from Sunday to Saturday whatever days had activity.  In the row
    of an employee-week a weekday with an entry holds its Day Info; a weekday
    without one holds the empty string of line 116 when no entry of the
    whole input falls on that weekday, and is left null by line 109 when
    another employee-week has an entry on it. *)
Lemma report_columns_and_weekday_cells (df : list entry) (rep : frame) :
  generate_timecard_report df = Returns rep ->
  columns rep
  = ["EmpID"; "Location"; "Week Start";
     "Sunday"; "Monday"; "Tuesday"; "Wednesday"; "Thursday"; "Friday"; "Saturday";
     "Weekly Regular Hours"; "Weekly OT Paid"; "Weekly Total Hours";
     "Weekly Proj OT"; "Overtime Owed"]%string
  /\ forall r, In r (data rep) ->
       List.length r = List.length (columns rep)
       /\ exists k, is_row_of k r
          /\ forall c, In c day_order ->
               (works_on df k c ->
                exists date t rg ot pj,
                  report_cell r c = Some (Info date t rg ot pj))
               /\ (~ works_on df k c -> anyone_works_on df c ->
                   report_cell r c = Some Null)
               /\ (~ anyone_works_on df c -> report_cell r c = Some (Str "")).
Proof.
  intro Hrun. split.
  - apply generate_timecard_report_Returns in Hrun. destruct Hrun as [_ ->].
    reflexivity.
  - intros r Hr. apply (In_report_data df rep r Hrun) in Hr.
    destruct Hr as [k [_ ->]].
    apply generate_timecard_report_Returns in Hrun. destruct Hrun as [_ ->].
    split; [apply report_row_length|].
    exists k. split; [apply report_row_key|].
    intros c Hc. rewrite (report_cell_day (stamped df) k c Hc).
    destruct (day_cell_cases df k c) as [H1 [H2 H3]]. repeat split.
    + intro Hw. destruct (H1 Hw) as [date [t [rg [ot [pj ->]]]]].
      now exists date, t, rg, ot, pj.
    + intros Hn Ha. now rewrite H2.
    + intro Hn. now rewrite H3.
Qed.

Lemma report_columns_and_weekday_cells_example :
  generate_timecard_report two_staff
  = Returns {| columns := final_cols;
               data := map (report_row (stamped two_staff))
                           (report_index (stamped two_staff)) |}
  /\ columns {| columns := final_cols;
                data := map (report_row (stamped two_staff))
                            (report_index (stamped two_staff)) |}
     = ["EmpID"; "Location"; "Week Start";
        "Sunday"; "Monday"; "Tuesday"; "Wednesday"; "Thursday"; "Friday"; "Saturday";
        "Weekly Regular Hours"; "Weekly OT Paid"; "Weekly Total Hours";
        "Weekly Proj OT"; "Overtime Owed"]%string.
Proof.
  assert (H : generate_timecard_report two_staff
              = Returns {| columns := final_cols;
                           data := map (report_row (stamped two_staff))
                                       (report_index (stamped two_staff)) |})
    by (vm_compute; reflexivity).
  split; [exact H|].
  apply (report_columns_and_weekday_cells two_staff _ H).
Defined.

(** C8.  The report has the columns of [final_cols], Sunday to Saturday
    among them, but a weekday without entries is not always an empty string.
    On [two_staff] employee 8 has no entry on Sunday and none on Monday: the
    Sunday cell of the row is the empty string that the loop of lines 114 to
    116 writes, the Monday cell is null, because employee 7 worked on Monday,
    the pivot has a Monday column and the loop skips it. *)
Theorem C8_weekday_without_entries_is_null :
  generate_timecard_report two_staff
  = Returns
      {| columns := ["EmpID"; "Location"; "Week Start";
                     "Sunday"; "Monday"; "Tuesday"; "Wednesday"; "Thursday";
                     "Friday"; "Saturday";
                     "Weekly Regular Hours"; "Weekly OT Paid";
                     "Weekly Total Hours"; "Weekly Proj OT";
                     "Overtime Owed"]%string;
         data := [[Int 7; Str "HQ"; Time (ymd 2024 3 10);
                   Str "";
                   Info (ymd 2024 3 11) (Some 8%Q) (Some 8%Q) (Some 0%Q) (Some 0%Q);
                   Null;
                   Str ""; Str ""; Str ""; Str "";
                   Float 8; Float 0; Float 8; Float 0; Float 0];
                  [Int 8; Str "HQ"; Time (ymd 2024 3 10);
                   Str "";
                   Null;
                   Info (ymd 2024 3 12) (Some 8%Q) (Some 8%Q) (Some 0%Q) (Some 0%Q);
                   Str ""; Str ""; Str ""; Str "";
                   Float 8; Float 0; Float 8; Float 0; Float 0]] |}
  /\ ~ works_on two_staff ("HQ"%string, 8, ymd 2024 3 10) "Sunday"
  /\ ~ works_on two_staff ("HQ"%string, 8, ymd 2024 3 10) "Monday"
  /\ report_cell [Int 8; Str "HQ"; Time (ymd 2024 3 10);
                  Str "";
                  Null;
                  Info (ymd 2024 3 12) (Some 8%Q) (Some 8%Q) (Some 0%Q) (Some 0%Q);
                  Str ""; Str ""; Str ""; Str "";
                  Float 8; Float 0; Float 8; Float 0; Float 0] "Sunday"
     = Some (Str "")
  /\ report_cell [Int 8; Str "HQ"; Time (ymd 2024 3 10);
                  Str "";
                  Null;
                  Info (ymd 2024 3 12) (Some 8%Q) (Some 8%Q) (Some 0%Q) (Some 0%Q);
                  Str ""; Str ""; Str ""; Str "";
                  Float 8; Float 0; Float 8; Float 0; Float 0] "Monday"
     = Some Null
  /\ Null <> Str "".
Proof.
  assert (Hno : forall c, (c = "Sunday" \/ c = "Monday")%string ->
                  ~ works_on two_staff ("HQ"%string, 8, ymd 2024 3 10) c).
  { intros c Hc [e [d [He [Hd [Hw Hn]]]]].
    destruct He as [<-|[<-|[]]]; vm_compute in Hd, Hw; injection Hd as <-;
      destruct Hc as [-> | ->]; vm_compute in Hn; discriminate. }
  split; [vm_compute; reflexivity|].
  split; [apply Hno; now left|]. split; [apply Hno; now right|].
  split; [vm_compute; reflexivity|]. split; [vm_compute; reflexivity|discriminate].
Qed.




(** C10.  When every entry of an employee-week has a pay code other than
    "regular" and "overtime", a run that returns still has the row of that
    week, and the five weekly columns of the row are null: [weekly_agg] has
    no row for the week and the merge of line 154 is a left merge. *)
Theorem C10_unpaid_week_has_null_totals (df : list entry) (rep : frame)
    (k : WeekKey) :
  generate_timecard_report df = Returns rep ->
  (exists e, In e df /\ entry_week e = Some k) ->
  (forall e, In e df -> entry_week e = Some k ->
             Pay_Code e <> Some "regular"%string
             /\ Pay_Code e <> Some "overtime"%string) ->
  (exists r, In r (data rep) /\ is_row_of k r)
  /\ (forall r, In r (data rep) -> is_row_of k r ->
        report_cell r "Weekly Regular Hours" = Some Null
        /\ report_cell r "Weekly OT Paid" = Some Null
        /\ report_cell r "Weekly Total Hours" = Some Null
        /\ report_cell r "Weekly Proj OT" = Some Null
        /\ report_cell r "Overtime Owed" = Some Null)
  /\ ~ In k (map week (weekly_agg (stamped df) (daily (stamped df)))).
Proof.
  intros Hrun Hex Hcodes.
  assert (Hout : ~ In k (paid_week_keys (stamped df))).
  { intro Hin. apply In_paid_week_keys_stamped in Hin.
    destruct Hin as [e [He [Hw Hp]]]. destruct (Hcodes e He Hw) as [H1 H2].
    destruct Hp; contradiction. }
  split; [|split].
  - exists (report_row (stamped df) k). split; [|apply report_row_key].
    apply (In_report_data df rep _ Hrun). exists k. split; [|reflexivity].
    now apply In_report_index_stamped.
  - intros r Hr Hk. apply (In_report_data df rep r Hrun) in Hr.
    destruct Hr as [k' [_ ->]]. apply report_row_key_inj in Hk. subst k'.
    rewrite !report_cell_weekly by (cbv; tauto).
    destruct (in_dec WeekKey_dec k (paid_week_keys (stamped df)));
      [contradiction|]. repeat split.
  - rewrite weekly_agg_eq, map_map. cbn [weekly_at week]. now rewrite map_id.
Qed.

Lemma C10_unpaid_week_has_null_totals_witness :
  generate_timecard_report holiday_only
  = Returns {| columns := final_cols;
               data := map (report_row (stamped holiday_only))
                           (report_index (stamped holiday_only)) |}
  /\ (exists e, In e holiday_only /\ entry_week e = Some holiday_only_key)
  /\ exists r, In r (map (report_row (stamped holiday_only))
                         (report_index (stamped holiday_only)))
               /\ is_row_of holiday_only_key r.
Proof.
  assert (H : generate_timecard_report holiday_only
              = Returns {| columns := final_cols;
                           data := map (report_row (stamped holiday_only))
                                       (report_index (stamped holiday_only)) |})
    by (vm_compute; reflexivity).
  assert (Hex : exists e, In e holiday_only /\ entry_week e = Some holiday_only_key).
  { eexists. split; [left; reflexivity | vm_compute; reflexivity]. }
  split; [exact H|]. split; [exact Hex|].
  apply (C10_unpaid_week_has_null_totals holiday_only _ holiday_only_key H Hex).
  intros e [<-|[]] _. split; discriminate.
Defined.

(* ------------------------------------------------------------------ *)
(** * Further properties of the run                                    *)
(* ------------------------------------------------------------------ *)

Lemma missing_date_dec (df : list entry) :
  (forall e, In e df -> Date e <> None) \/ (exists e, In e df /\ Date e = None).
Proof.
  induction df as [|e df [IH|[e' [He' Hd]]]].
  - left. intros e [].
  - destruct (Date e) as [d|] eqn:Hd.
    + left. intros e' [<-|He']; [congruence | now apply IH].
    + right. exists e. split; [now left | exact Hd].
  - right. exists e'. split; [now right | exact Hd].
Qed.

(** X1.  The run returns a report, with the columns [final_cols], exactly
    when every entry has a date.  With a missing date it raises
    [AttributeError] at line 74; it raises nothing else, so the column
    selection of line 158 never fails with [KeyError]. *)
Theorem X1_run_outcome (df : list entry) :
  ((forall e, In e df -> Date e <> None) ->
   exists rep, generate_timecard_report df = Returns rep
               /\ columns rep = final_cols)
  /\ ((exists e, In e df /\ Date e = None) ->
      generate_timecard_report df = Raises (AttributeError "start_time"))
  /\ (forall x, generate_timecard_report df = Raises x ->
        x = AttributeError "start_time" /\ exists e, In e df /\ Date e = None).
Proof.
  split; [|split].
  - intro Hall. eexists. split.
    + apply generate_timecard_report_Returns. split; [exact Hall | reflexivity].
    + reflexivity.
  - apply missing_date_raises.
  - intros x Hx. destruct (missing_date_dec df) as [Hall|Hmiss].
    + exfalso.
      assert (H : generate_timecard_report df
                  = Returns {| columns := final_cols;
                               data := map (report_row (stamped df))
                                           (report_index (stamped df)) |})
        by (apply generate_timecard_report_Returns; auto).
      congruence.
    + rewrite (missing_date_raises df Hmiss) in Hx. injection Hx as <-. auto.
Qed.

Lemma X1_run_outcome_witness :
  (forall e, In e two_staff -> Date e <> None)
  /\ exists rep, generate_timecard_report two_staff = Returns rep
                 /\ columns rep = final_cols.
Proof.
  assert (H : forall e, In e two_staff -> Date e <> None).
  { intros e [<-|[<-|[]]]; discriminate. }
  split; [exact H|]. exact (proj1 (X1_run_outcome two_staff) H).
Defined.




(** X3.  [daily] has exactly one row per day with an entry: no
    (location, employee, week, date) occurs twice after the three left
    merges, and the days are those of the dated rows of the input. *)
Theorem X3_daily_one_row_per_day (df : list row) :
  NoDup (map day (daily df))
  /\ forall dk, In dk (map day (daily df))
                <-> exists r, In r df /\ day_key r = Some dk.
Proof.
  rewrite daily_eq, map_map. cbn [daily_at day]. rewrite map_id. split.
  - apply NoDup_group_keys.
  - intro dk. apply In_group_keys.
Qed.

Lemma X3_daily_one_row_per_day_witness :
  NoDup (map day (daily (stamped two_staff))).
Proof.
  exact (proj1 (X3_daily_one_row_per_day (stamped two_staff))).
Defined.

(** The fields of a row of [weekly_agg] are numbers. *)
Lemma weekly_at_fields (df : list row) (k : WeekKey) :
  exists reg paid proj owed : Q,
    weekly_at df k
    = {| week := k;
         Weekly_Regular_Hours := Some reg;
         Weekly_OT_Paid := Some paid;
         Weekly_Total_Hours := Some (reg + paid)%Q;
         Weekly_Proj_OT := Some proj;
         Overtime_Owed := Some owed |}
    /\ compute_ot_owed (Some (reg + paid)%Q) (Some paid) (Some proj) = Some owed
    /\ reg = total_of (map (fun r => Hours (cols r)) (week_rows (filter is_regular df) k))
    /\ paid = total_of (map (fun r => Hours (cols r)) (week_rows (filter is_overtime df) k))
    /\ proj = total_of (map Proj_OT (week_days df k)).
Proof.
  pose proof (Overtime_Owed_nonneg df k) as Hn.
  unfold weekly_at in *. cbn [Overtime_Owed] in Hn.
  unfold sum_Hours, Num.sum in *. cbn [Num.add] in *. fold total_of in *.
  match type of Hn with
  | Num.nonneg (compute_ot_owed (Some (?a + ?b)%Q) (Some ?p) (Some ?j)) =>
      destruct (compute_ot_owed (Some (a + b)%Q) (Some p) (Some j)) as [owed|] eqn:Ho;
      [exists a, b, j, owed | destruct Hn]
  end.
  repeat split. exact Ho.
Qed.

(** X4.  The five weekly cells of a report row are the values of the
    week's row of [weekly_agg] when the employee-week has an entry coded
    "regular" or "overtime": numbers, with Weekly Total Hours the sum of the
    first two.  The Overtime Owed cell is null exactly when the week has no
    such entry. *)
Theorem X4_weekly_cells_of_report (df : list entry) (rep : frame) (k : WeekKey)
    (r : list value) :
  generate_timecard_report df = Returns rep -> In r (data rep) -> is_row_of k r ->
  (has_paid_entry df k ->
   exists w reg paid proj owed,
     In w (weekly_agg (stamped df) (daily (stamped df)))
     /\ week w = k
     /\ Weekly_Regular_Hours w = Some reg /\ Weekly_OT_Paid w = Some paid
     /\ Weekly_Proj_OT w = Some proj /\ Overtime_Owed w = Some owed
     /\ report_cell r "Weekly Regular Hours" = Some (Float reg)
     /\ report_cell r "Weekly OT Paid" = Some (Float paid)
     /\ report_cell r "Weekly Total Hours" = Some (Float (reg + paid))
     /\ report_cell r "Weekly Proj OT" = Some (Float proj)
     /\ report_cell r "Overtime Owed" = Some (Float owed))
  /\ (report_cell r "Overtime Owed" = Some Null <-> ~ has_paid_entry df k).
Proof.
  intros Hrun Hr Hk. apply (In_report_data df rep r Hrun) in Hr.
  destruct Hr as [k' [_ ->]]. apply report_row_key_inj in Hk. subst k'.
  rewrite !report_cell_weekly by (cbv; tauto).
  destruct (weekly_at_fields (stamped df) k)
    as [reg [paid [proj [owed [Hw _]]]]].
  destruct (in_dec WeekKey_dec k (paid_week_keys (stamped df))) as [Hin|Hout].
  - split.
    + intros _. exists (weekly_at (stamped df) k), reg, paid, proj, owed.
      split; [apply In_weekly_agg; now exists k|].
      rewrite Hw. repeat split.
    + rewrite Hw. split.
      * intro H. cbv in H. discriminate H.
      * intro H. exfalso. apply H. now apply In_paid_week_keys_stamped.
  - split.
    + intro H. exfalso. apply Hout. now apply In_paid_week_keys_stamped.
    + split; [|reflexivity]. intros _ H. apply Hout.
      now apply In_paid_week_keys_stamped.
Qed.

Lemma X4_weekly_cells_of_report_witness :
  generate_timecard_report six_day_week
  = Returns {| columns := final_cols;
               data := map (report_row (stamped six_day_week))
                           (report_index (stamped six_day_week)) |}
  /\ In (report_row (stamped six_day_week) six_day_week_key)
        (map (report_row (stamped six_day_week)) (report_index (stamped six_day_week)))
  /\ is_row_of six_day_week_key (report_row (stamped six_day_week) six_day_week_key)
  /\ (report_cell (report_row (stamped six_day_week) six_day_week_key) "Overtime Owed"
      = Some Null <-> ~ has_paid_entry six_day_week six_day_week_key).
Proof.
  assert (H : generate_timecard_report six_day_week
              = Returns {| columns := final_cols;
                           data := map (report_row (stamped six_day_week))
                                       (report_index (stamped six_day_week)) |})
    by (vm_compute; reflexivity).
  assert (Hr : In (report_row (stamped six_day_week) six_day_week_key)
                  (map (report_row (stamped six_day_week))
                       (report_index (stamped six_day_week))))
    by (vm_compute; left; reflexivity).
  assert (Hk : is_row_of six_day_week_key
                         (report_row (stamped six_day_week) six_day_week_key))
    by (vm_compute; repeat split).
  split; [exact H|]. split; [exact Hr|]. split; [exact Hk|].
  exact (proj2 (X4_weekly_cells_of_report six_day_week _ six_day_week_key _ H Hr Hk)).
Defined.

(** X5.  Two dates have the same week start exactly when the second lies
    between the week start of the first and the Saturday six days after it;
    the week start of a week start is itself, a date seven days later starts
    seven days later, and a later date never has an earlier week start. *)
Theorem X5_weeks_partition_the_calendar (d1 d2 : Z) :
  (week_start d1 = week_start d2 <-> week_start d1 <= d2 <= week_start d1 + 6)
  /\ week_start (week_start d1) = week_start d1
  /\ week_start (d1 + 7) = week_start d1 + 7
  /\ (d1 <= d2 -> week_start d1 <= week_start d2).
Proof.
  unfold week_start, to_period_W_SAT, weekday.
  repeat split; intros; Z.div_mod_to_equations; lia.
Qed.

(** Wednesday 2024-03-13 and Saturday 2024-03-16 are in the week that
    starts on Sunday 2024-03-10. *)
Lemma X5_weeks_partition_the_calendar_witness :
  week_start (ymd 2024 3 13) = ymd 2024 3 10
  /\ week_start (ymd 2024 3 13) = week_start (ymd 2024 3 16).
Proof.
  split; [reflexivity|].
  apply (proj1 (X5_weeks_partition_the_calendar (ymd 2024 3 13) (ymd 2024 3 16))).
  vm_compute. split; discriminate.
Defined.

Lemma compute_ot_owed_value (total paid proj : Q) :
  exists owed, compute_ot_owed (Some total) (Some paid) (Some proj) = Some owed
               /\ ((total <= 40)%Q /\ owed = proj
                   \/ (40 < total)%Q /\ (0 < paid - proj)%Q /\ owed = 0%Q
                   \/ (40 < total)%Q /\ (paid - proj <= 0)%Q
                      /\ owed = Qabs (paid - proj)).
Proof.
  unfold compute_ot_owed, Num.le, Num.sub, Num.gt, Num.abs.
  destruct (Qle_bool total 40) eqn:Ht.
  - apply Qle_bool_iff in Ht. exists proj. split; [reflexivity|]. left. auto.
  - assert (Hgt : (40 < total)%Q).
    { apply Qnot_le_lt. intro C. apply Qle_bool_iff in C. congruence. }
    destruct (negb (Qle_bool (paid - proj) 0)) eqn:Hd.
    + apply gt_true in Hd. exists 0%Q. split; [reflexivity|].
      right. left. auto.
    + apply gt_false in Hd. exists (Qabs (paid - proj)). split; [reflexivity|].
      right. right. auto.
Qed.

(** X6.  With the regular hours and the projected overtime of a week fixed,
    paying more overtime never raises Overtime Owed: [compute_ot_owed] is
    antitone in Weekly OT Paid, Weekly Total Hours being the regular hours
    plus the overtime paid. *)
Theorem X6_more_overtime_paid_never_owes_more (reg paid1 paid2 proj : Q) :
  (0 <= paid1)%Q -> (paid1 <= paid2)%Q -> (0 <= proj)%Q ->
  exists owed1 owed2 : Q,
    compute_ot_owed (Some (reg + paid1)%Q) (Some paid1) (Some proj) = Some owed1
    /\ compute_ot_owed (Some (reg + paid2)%Q) (Some paid2) (Some proj) = Some owed2
    /\ (owed2 <= owed1)%Q.
Proof.
  intros H0 H12 Hp.
  destruct (compute_ot_owed_value (reg + paid1) paid1 proj) as [o1 [E1 C1]].
  destruct (compute_ot_owed_value (reg + paid2) paid2 proj) as [o2 [E2 C2]].
  exists o1, o2. split; [exact E1|]. split; [exact E2|].
  destruct C1 as [[T1 ->]|[[T1 [D1 ->]]|[T1 [D1 ->]]]];
    destruct C2 as [[T2 ->]|[[T2 [D2 ->]]|[T2 [D2 ->]]]];
    try (rewrite Qabs_neg by assumption); try (rewrite (Qabs_neg (paid1 - proj)) by assumption);
    lra.
Qed.

Lemma X6_more_overtime_paid_never_owes_more_witness :
  exists owed1 owed2 : Q,
    compute_ot_owed (Some (38 + 1)%Q) (Some 1%Q) (Some 4%Q) = Some owed1
    /\ compute_ot_owed (Some (38 + 3)%Q) (Some 3%Q) (Some 4%Q) = Some owed2
    /\ (owed2 <= owed1)%Q.
Proof.
  apply (X6_more_overtime_paid_never_owes_more 38 1 3 4); lra.
Defined.

Lemma total_of_nonneg_hours (df g : list row) :
  nonneg_hours df -> (forall r, In r g -> In r df) ->
  (0 <= total_of (map (fun r => Hours (cols r)) g))%Q.
Proof.
  intros Hn Hsub. apply total_nonneg. intros x Hx. apply In_present in Hx.
  apply in_map_iff in Hx. destruct Hx as [r [Hr Hin]].
  exact (Hn r x (Hsub r Hin) Hr).
Qed.

Lemma week_rows_filter_sub (p : row -> bool) (df : list row) (k : WeekKey) (r : row) :
  In r (week_rows (filter p df) k) -> In r df.
Proof.
  unfold week_rows. intro H. apply In_group in H. destruct H as [H _].
  now apply filter_In in H.
Qed.

(** X7.  When no entry has negative hours, Overtime Owed never exceeds
    Weekly Proj OT in a row of [weekly_agg]: what was paid as overtime can
    lower the amount owed but not raise it. *)
Theorem X7_owed_at_most_projected (df : list row) (w : weekly_row) :
  nonneg_hours df -> In w (weekly_agg df (daily df)) ->
  exists owed proj : Q,
    Overtime_Owed w = Some owed /\ Weekly_Proj_OT w = Some proj
    /\ (0 <= owed)%Q /\ (owed <= proj)%Q.
Proof.
  intros Hn H. apply In_weekly_agg in H. destruct H as [k [_ ->]].
  destruct (weekly_at_fields df k)
    as [reg [paid [proj [owed [Hw [Ho [_ [Hpaid Hproj]]]]]]]].
  rewrite Hw. exists owed, proj. split; [reflexivity|]. split; [reflexivity|].
  assert (Hp0 : (0 <= paid)%Q).
  { subst paid. apply (total_of_nonneg_hours df); [exact Hn|].
    apply week_rows_filter_sub. }
  assert (Hj0 : (0 <= proj)%Q).
  { subst proj. exact (Weekly_Proj_OT_nonneg df k). }
  destruct (compute_ot_owed_value (reg + paid) paid proj) as [o [E C]].
  rewrite Ho in E. injection E as <-.
  destruct C as [[T ->]|[[T [D ->]]|[T [D ->]]]];
    try (rewrite Qabs_neg by assumption); split; lra.
Qed.

Lemma X7_owed_at_most_projected_witness :
  nonneg_hours (stamped six_day_week)
  /\ In (weekly_at (stamped six_day_week) six_day_week_key)
        (weekly_agg (stamped six_day_week) (daily (stamped six_day_week)))
  /\ exists owed proj : Q,
      Overtime_Owed (weekly_at (stamped six_day_week) six_day_week_key) = Some owed
      /\ Weekly_Proj_OT (weekly_at (stamped six_day_week) six_day_week_key) = Some proj
      /\ (0 <= owed)%Q /\ (owed <= proj)%Q.
Proof.
  assert (Hn : nonneg_hours (stamped six_day_week)).
  { intros r h Hr. vm_compute in Hr.
    decompose [or] Hr; try contradiction; subst r; intro Hh; vm_compute in Hh;
      injection Hh as <-; discriminate. }
  assert (H : In (weekly_at (stamped six_day_week) six_day_week_key)
                 (weekly_agg (stamped six_day_week) (daily (stamped six_day_week))))
    by (vm_compute; left; reflexivity).
  split; [exact Hn|]. split; [exact H|].
  exact (X7_owed_at_most_projected _ _ Hn H).
Defined.

(** ** Missing hours *)

Lemma group_app {K R : Type} (K_dec : forall a b : K, {a = b} + {a <> b})
    (key : R -> option K) (l1 l2 : list R) (k : K) :
  group K_dec key (l1 ++ l2) k = group K_dec key l1 k ++ group K_dec key l2 k.
Proof. unfold group. apply filter_app. Qed.

Lemma present_app (l1 l2 : list num) :
  Num.present (l1 ++ l2) = Num.present l1 ++ Num.present l2.
Proof.
  induction l1 as [|[x|] l1 IH]; cbn; [reflexivity| |exact IH].
  now rewrite IH.
Qed.

(** A row without hours, anywhere in a group, leaves the sum unchanged. *)
Lemma sum_Hours_skip (g1 g2 : list row) (r : row) :
  Hours (cols r) = None -> sum_Hours (g1 ++ r :: g2) = sum_Hours (g1 ++ g2).
Proof.
  intro H. unfold sum_Hours, Num.sum.
  rewrite !map_app, !present_app. cbn [map Num.present]. now rewrite H.
Qed.

Lemma sum_Hours_group_skip {K : Type} (K_dec : forall a b : K, {a = b} + {a <> b})
    (key : row -> option K) (l1 l2 : list row) (r : row) (k : K) :
  Hours (cols r) = None ->
  sum_Hours (group K_dec key (l1 ++ r :: l2) k)
  = sum_Hours (group K_dec key (l1 ++ l2) k).
Proof.
  intro H. rewrite !group_app. unfold group at 2. cbn [filter].
  destruct (match key r with Some k' => keqb K_dec k' k | None => false end).
  - now apply sum_Hours_skip.
  - reflexivity.
Qed.

Lemma filter_app_cons (p : row -> bool) (l1 l2 : list row) (r : row) :
  filter p (l1 ++ r :: l2)
  = if p r then filter p l1 ++ r :: filter p l2 else filter p l1 ++ filter p l2.
Proof.
  rewrite filter_app. cbn [filter]. destruct (p r); [reflexivity|].
  now rewrite <- filter_app.
Qed.

Lemma sum_Hours_filter_group_skip {K : Type}
    (K_dec : forall a b : K, {a = b} + {a <> b})
    (key : row -> option K) (p : row -> bool) (l1 l2 : list row) (r : row) (k : K) :
  Hours (cols r) = None ->
  sum_Hours (group K_dec key (filter p (l1 ++ r :: l2)) k)
  = sum_Hours (group K_dec key (filter p (l1 ++ l2)) k).
Proof.
  intro H. rewrite filter_app_cons. destruct (p r).
  - rewrite (sum_Hours_group_skip K_dec key _ _ r k H). now rewrite <- filter_app.
  - now rewrite <- filter_app.
Qed.

Lemma missing_hours_same_sums (l1 l2 : list row) (r : row) :
  Hours (cols r) = None ->
  (forall dk,
      Total_Hours (daily_at (l1 ++ r :: l2) dk) = Total_Hours (daily_at (l1 ++ l2) dk)
      /\ Reg (daily_at (l1 ++ r :: l2) dk) = Reg (daily_at (l1 ++ l2) dk)
      /\ OT_Paid (daily_at (l1 ++ r :: l2) dk) = OT_Paid (daily_at (l1 ++ l2) dk))
  /\ (forall k,
        Weekly_Regular_Hours (weekly_at (l1 ++ r :: l2) k)
        = Weekly_Regular_Hours (weekly_at (l1 ++ l2) k)
        /\ Weekly_OT_Paid (weekly_at (l1 ++ r :: l2) k)
           = Weekly_OT_Paid (weekly_at (l1 ++ l2) k)
        /\ Weekly_Total_Hours (weekly_at (l1 ++ r :: l2) k)
           = Weekly_Total_Hours (weekly_at (l1 ++ l2) k)).
Proof.
  intro H. split.
  - intro dk. unfold daily_at, day_rows. cbn [Total_Hours Reg OT_Paid].
    rewrite (sum_Hours_group_skip DayKey_dec day_key l1 l2 r dk H).
    rewrite !(sum_Hours_filter_group_skip DayKey_dec day_key _ l1 l2 r dk H).
    auto.
  - intro k. unfold weekly_at, week_rows.
    cbn [Weekly_Regular_Hours Weekly_OT_Paid Weekly_Total_Hours].
    rewrite !(sum_Hours_filter_group_skip WeekKey_dec week_key _ l1 l2 r k H).
    auto.
Qed.

Lemma In_app_cons_mono {A : Type} (l1 l2 : list A) (r x : A) :
  In x (l1 ++ l2) -> In x (l1 ++ r :: l2).
Proof.
  rewrite !in_app_iff. intros [H|H]; [now left | right; now right].
Qed.

Lemma In_paid_week_keys (df : list row) (k : WeekKey) :
  In k (paid_week_keys df)
  <-> exists r, In r df /\ week_key r = Some k
                /\ (is_regular r = true \/ is_overtime r = true).
Proof.
  unfold paid_week_keys, week_keys.
  rewrite In_sort, nodup_In, in_app_iff, !In_group_keys. split.
  - intros [[r [Hr Hk]]|[r [Hr Hk]]]; apply filter_In in Hr; exists r; tauto.
  - intros [r [Hr [Hk [Hp|Hp]]]]; [left|right]; exists r;
      (split; [apply filter_In; auto | exact Hk]).
Qed.

(** X10.  An entry whose Hours is missing contributes nothing: put
    anywhere into the input, it leaves the Total_Hours, Reg and OT_Paid of
    every row of [daily] and the Weekly Regular Hours, Weekly OT Paid and
    Weekly Total Hours of every row of [weekly_agg] as they were.  The entry
    is not left out: its day has a row in [daily]. *)
Theorem X10_missing_hours_contribute_nothing (l1 l2 : list row) (r : row) :
  Hours (cols r) = None ->
  (forall d, In d (daily (l1 ++ l2)) ->
     exists d', In d' (daily (l1 ++ r :: l2)) /\ day d' = day d
                /\ Total_Hours d' = Total_Hours d
                /\ Reg d' = Reg d /\ OT_Paid d' = OT_Paid d)
  /\ (forall w, In w (weekly_agg (l1 ++ l2) (daily (l1 ++ l2))) ->
       exists w', In w' (weekly_agg (l1 ++ r :: l2) (daily (l1 ++ r :: l2)))
                  /\ week w' = week w
                  /\ Weekly_Regular_Hours w' = Weekly_Regular_Hours w
                  /\ Weekly_OT_Paid w' = Weekly_OT_Paid w
                  /\ Weekly_Total_Hours w' = Weekly_Total_Hours w)
  /\ (forall dk, day_key r = Some dk ->
        exists d, In d (daily (l1 ++ r :: l2)) /\ day d = dk).
Proof.
  intro H. destruct (missing_hours_same_sums l1 l2 r H) as [Hday Hweek].
  split; [|split].
  - intros d Hd. apply In_daily in Hd. destruct Hd as [dk [Hdk ->]].
    exists (daily_at (l1 ++ r :: l2) dk). split.
    + apply In_daily. exists dk. split; [|reflexivity].
      apply In_group_keys in Hdk. destruct Hdk as [x [Hx Hk]].
      apply In_group_keys. exists x. split; [now apply In_app_cons_mono | exact Hk].
    + split; [reflexivity|]. apply Hday.
  - intros w Hw. apply In_weekly_agg in Hw. destruct Hw as [k [Hk ->]].
    exists (weekly_at (l1 ++ r :: l2) k). split.
    + apply In_weekly_agg. exists k. split; [|reflexivity].
      apply In_paid_week_keys in Hk. destruct Hk as [x [Hx Hk]].
      apply In_paid_week_keys. exists x. split; [now apply In_app_cons_mono | exact Hk].
    + split; [reflexivity|]. apply Hweek.
  - intros dk Hk. exists (daily_at (l1 ++ r :: l2) dk). split; [|reflexivity].
    apply In_daily. exists dk. split; [|reflexivity].
    apply In_group_keys. exists r. split; [|exact Hk].
    apply in_or_app. right. now left.
Qed.

(** On [two_staff] with [no_hours_entry] put in front, employee 7 gets a row
    for Tuesday. *)
Lemma X10_missing_hours_contribute_nothing_witness :
  Hours (cols (dated no_hours_entry (ymd 2024 3 12))) = None
  /\ exists d, In d (daily ([] ++ dated no_hours_entry (ymd 2024 3 12)
                               :: stamped two_staff))
               /\ day d = ("HQ"%string, 7, ymd 2024 3 10, ymd 2024 3 12).
Proof.
  split; [reflexivity|].
  apply (proj2 (proj2 (X10_missing_hours_contribute_nothing
                         [] (stamped two_staff)
                         (dated no_hours_entry (ymd 2024 3 12)) eq_refl))).
  vm_compute. reflexivity.
Defined.

(** ** The weekday cells *)

(** The first element of a list that satisfies [p], with what precedes
    it. *)
Lemma filter_first {A : Type} (p : A -> bool) (l : list A) :
  (exists x, In x l /\ p x = true) ->
  exists before x after,
    l = before ++ x :: after /\ p x = true
    /\ (forall y, In y before -> p y = false)
    /\ filter p l = x :: filter p after.
Proof.
  induction l as [|a l IH]; intros [x [Hx Hp]]; [destruct Hx|].
  destruct (p a) eqn:Ea.
  - exists [], a, l. cbn [app filter]. rewrite Ea. repeat split; auto.
    intros y [].
  - destruct Hx as [->|Hx]; [congruence|].
    destruct (IH (ex_intro _ x (conj Hx Hp))) as [b [y [t [-> [Hy [Hb Hf]]]]]].
    exists (a :: b), y, t. cbn [app filter]. rewrite Ea. repeat split; auto.
    intros z [<-|Hz]; auto.
Qed.

Lemma cell_key_matches (k : WeekKey) (c : string) (x : daily_row) :
  match cell_key x with
  | Some k' => keqb CellKey_dec k' (k, c)
  | None => false
  end = true
  <-> fst (day x) = k /\ day_name (snd (day x)) = c.
Proof.
  unfold cell_key. rewrite keqb_true. split.
  - intro H. injection H as H1 H2. auto.
  - intros [-> ->]. reflexivity.
Qed.

(** X11.  In the row of an employee-week, the cell under the weekday of an
    entry is never null or empty: [aggfunc='first'] puts there the Day Info
    of the first row of [daily], in frame order, that belongs to that
    employee-week and falls on a day with that weekday name. *)
Theorem X11_weekday_cell_is_first_day_info (df : list entry) (rep : frame)
    (e : entry) (d : Z) (k : WeekKey) (r : list value) :
  generate_timecard_report df = Returns rep ->
  In e df -> Date e = Some d -> entry_week e = Some k ->
  In r (data rep) -> is_row_of k r ->
  exists before dd after,
    daily (stamped df) = before ++ dd :: after
    /\ fst (day dd) = k /\ day_name (snd (day dd)) = day_name d
    /\ (forall x, In x before ->
          ~ (fst (day x) = k /\ day_name (snd (day x)) = day_name d))
    /\ report_cell r (day_name d)
       = Some (Info (snd (day dd)) (Total_Hours dd) (Reg dd) (OT_Paid dd)
                    (Proj_OT dd)).
Proof.
  intros Hrun He Hd Hk Hr Hrow.
  apply (In_report_data df rep r Hrun) in Hr. destruct Hr as [k' [_ ->]].
  apply report_row_key_inj in Hrow. subst k'.
  assert (Hkey : In (k, day_name d) (pivot_keys (stamped df)))
    by (apply In_pivot_keys_stamped; now exists e, d).
  assert (Hex : exists x, In x (daily (stamped df))
                          /\ match cell_key x with
                             | Some k' => keqb CellKey_dec k' (k, day_name d)
                             | None => false
                             end = true).
  { unfold pivot_keys in Hkey. apply In_group_keys in Hkey.
    destruct Hkey as [x [Hx Hc]]. exists x. split; [exact Hx|].
    rewrite Hc. apply keqb_refl. }
  destruct (filter_first _ _ Hex) as [before [dd [after [Hl [Hp [Hb Hf]]]]]].
  exists before, dd, after. apply cell_key_matches in Hp. destruct Hp as [Hp1 Hp2].
  split; [exact Hl|]. split; [exact Hp1|]. split; [exact Hp2|]. split.
  - intros x Hx Hc. apply (proj2 (cell_key_matches k (day_name d) x)) in Hc.
    pose proof (Hb x Hx) as Hn. cbv beta in Hn. unfold cell_key in Hc, Hn.
    congruence.
  - rewrite report_cell_day by apply day_name_is_day.
    unfold day_cell, pivot_cell.
    assert (Ha : has_column (day_name d) (pivot_cols (stamped df)) = true)
      by (apply pivot_col_stamped; now exists e, d).
    rewrite Ha.
    destruct (in_dec CellKey_dec (k, day_name d) (pivot_keys (stamped df)))
      as [_|Hout]; [|contradiction].
    assert (Hg : group CellKey_dec cell_key (daily (stamped df)) (k, day_name d)
                 = dd :: filter _ after) by exact Hf.
    rewrite Hg. reflexivity.
Qed.

Lemma X11_weekday_cell_is_first_day_info_witness :
  generate_timecard_report two_staff
  = Returns {| columns := final_cols;
               data := map (report_row (stamped two_staff))
                           (report_index (stamped two_staff)) |}
  /\ exists before dd after,
       daily (stamped two_staff) = before ++ dd :: after
       /\ fst (day dd) = ("HQ"%string, 8, ymd 2024 3 10)
       /\ day_name (snd (day dd)) = "Tuesday"%string
       /\ report_cell (report_row (stamped two_staff)
                                  ("HQ"%string, 8, ymd 2024 3 10)) "Tuesday"
          = Some (Info (snd (day dd)) (Total_Hours dd) (Reg dd) (OT_Paid dd)
                       (Proj_OT dd)).
Proof.
  assert (H : generate_timecard_report two_staff
              = Returns {| columns := final_cols;
                           data := map (report_row (stamped two_staff))
                                       (report_index (stamped two_staff)) |})
    by (vm_compute; reflexivity).
  split; [exact H|].
  destruct (X11_weekday_cell_is_first_day_info two_staff _
              (entry_on (ymd 2024 3 12) 8 (Some 8%Q) "regular" "HQ" (Some 8%Q))
              (ymd 2024 3 12) ("HQ"%string, 8, ymd 2024 3 10)
              (report_row (stamped two_staff) ("HQ"%string, 8, ymd 2024 3 10)) H)
    as [before [dd [after [H1 [H2 [H3 [_ H5]]]]]]].
  - right. left. reflexivity.
  - reflexivity.
  - vm_compute. reflexivity.
  - vm_compute. right. left. reflexivity.
  - vm_compute. repeat split.
  - exists before, dd, after. repeat split; assumption.
Defined.

(** ** The order of the rows *)

Section SortFacts.

Context {K : Type}.
Variable K_leb : K -> K -> bool.
Hypothesis K_leb_total : forall a b, K_leb a b = true \/ K_leb b a = true.

Lemma insert_HdRel (a k : K) (l : list K) :
  HdRel (fun x y => K_leb x y = true) a l -> K_leb a k = true ->
  HdRel (fun x y => K_leb x y = true) a (insert K_leb k l).
Proof.
  intros H Hk. destruct l as [|x l]; cbn [insert].
  - now constructor.
  - destruct (K_leb k x); constructor; [exact Hk|].
    now inversion H.
Qed.

Lemma insert_Sorted (k : K) (l : list K) :
  Sorted (fun x y => K_leb x y = true) l ->
  Sorted (fun x y => K_leb x y = true) (insert K_leb k l).
Proof.
  induction 1 as [|x l HS IH HR]; cbn [insert].
  - repeat constructor.
  - destruct (K_leb k x) eqn:E.
    + constructor; [now constructor | now constructor].
    + constructor; [exact IH|]. apply insert_HdRel; [exact HR|].
      destruct (K_leb_total x k) as [H|H]; [exact H | congruence].
Qed.

Lemma sort_Sorted (l : list K) :
  Sorted (fun x y => K_leb x y = true) (sort K_leb l).
Proof.
  induction l as [|x l IH]; cbn [sort]; [constructor|].
  now apply insert_Sorted.
Qed.

Lemma Sorted_strict (lt : K -> K -> Prop) (l : list K) :
  (forall a b, K_leb a b = true -> a <> b -> lt a b) ->
  NoDup l -> Sorted (fun x y => K_leb x y = true) l -> Sorted lt l.
Proof.
  intros Hlt Hnd HS. induction HS as [|x l HS IH HR]; [constructor|].
  inversion Hnd as [|? ? Hx Hnd']; subst. constructor; [now apply IH|].
  destruct HR as [|y l Hxy]; constructor.
  apply Hlt; [exact Hxy|]. intros ->. apply Hx. now left.
Qed.

End SortFacts.

Lemma WeekKey_compare_antisym (a b : WeekKey) :
  WeekKey_compare a b = CompOpp (WeekKey_compare b a).
Proof.
  destruct a as [[l1 e1] w1], b as [[l2 e2] w2]. unfold WeekKey_compare.
  pose proof (String.compare_antisym l1 l2) as Hl.
  pose proof (Z.compare_antisym e2 e1) as He.
  pose proof (Z.compare_antisym w2 w1) as Hw.
  destruct (String.compare l2 l1); rewrite Hl; cbn [CompOpp]; try reflexivity.
  destruct (e2 ?= e1); rewrite He; cbn [CompOpp]; try reflexivity.
  exact Hw.
Qed.

Lemma WeekKey_compare_Eq (a b : WeekKey) : WeekKey_compare a b = Eq -> a = b.
Proof.
  destruct a as [[l1 e1] w1], b as [[l2 e2] w2]. unfold WeekKey_compare.
  destruct (String.compare l1 l2) eqn:El; try discriminate.
  destruct (e1 ?= e2) eqn:Ee; try discriminate. intro Ew.
  apply String.compare_eq_iff in El. apply Z.compare_eq in Ee, Ew. congruence.
Qed.

Lemma WeekKey_leb_total (a b : WeekKey) :
  WeekKey_leb a b = true \/ WeekKey_leb b a = true.
Proof.
  unfold WeekKey_leb. rewrite (WeekKey_compare_antisym b a).
  destruct (WeekKey_compare a b); cbn; auto.
Qed.

Lemma WeekKey_leb_lt (a b : WeekKey) :
  WeekKey_leb a b = true -> a <> b -> WeekKey_lt a b.
Proof.
  unfold WeekKey_leb, WeekKey_lt. intros H Hne.
  destruct (WeekKey_compare a b) eqn:E; [|reflexivity|discriminate H].
  apply WeekKey_compare_Eq in E. contradiction.
Qed.

Lemma report_index_Sorted (df : list row) : Sorted WeekKey_lt (report_index df).
Proof.
  apply (Sorted_strict WeekKey_leb).
  - apply WeekKey_leb_lt.
  - apply NoDup_report_index.
  - apply sort_Sorted, WeekKey_leb_total.
Qed.

Lemma Forall2_report_rows (df : list row) (ks : list WeekKey) :
  Forall2 is_row_of ks (map (report_row df) ks).
Proof.
  induction ks as [|k ks IH]; cbn [map]; constructor; [apply report_row_key | exact IH].
Qed.

(** X12.  The rows of the report are in strictly increasing order of
    their keys, compared by Location first, then EmpID, then Week Start:
    each row's key is below the key of the next row. *)
Theorem X12_report_rows_are_sorted (df : list entry) (rep : frame) :
  generate_timecard_report df = Returns rep ->
  exists ks : list WeekKey,
    Forall2 is_row_of ks (data rep) /\ Sorted WeekKey_lt ks.
Proof.
  intro Hrun. apply generate_timecard_report_Returns in Hrun.
  destruct Hrun as [_ ->]. exists (report_index (stamped df)). split.
  - apply Forall2_report_rows.
  - apply report_index_Sorted.
Qed.

Lemma X12_report_rows_are_sorted_witness :
  generate_timecard_report two_staff
  = Returns {| columns := final_cols;
               data := map (report_row (stamped two_staff))
                           (report_index (stamped two_staff)) |}
  /\ exists ks : list WeekKey,
      Forall2 is_row_of ks (map (report_row (stamped two_staff))
                                (report_index (stamped two_staff)))
      /\ Sorted WeekKey_lt ks.
Proof.
  assert (H : generate_timecard_report two_staff
              = Returns {| columns := final_cols;
                           data := map (report_row (stamped two_staff))
                                       (report_index (stamped two_staff)) |})
    by (vm_compute; reflexivity).
  split; [exact H|].
  exact (X12_report_rows_are_sorted two_staff _ H).
Defined.

(* ------------------------------------------------------------------ *)
(** * Properties of the pay code column                                *)
(* ------------------------------------------------------------------ *)

Lemma isspace_lower_char (c : ascii) : isspace (lower_char c) = isspace c.
Proof. destruct c as [[] [] [] [] [] [] [] []]; reflexivity. Qed.

Lemma lower_char_idem (c : ascii) : lower_char (lower_char c) = lower_char c.
Proof. destruct c as [[] [] [] [] [] [] [] []]; reflexivity. Qed.

Lemma lower_idem (s : string) : lower (lower s) = lower s.
Proof.
  induction s as [|c s IH]; cbn [lower]; [reflexivity|].
  now rewrite lower_char_idem, IH.
Qed.

Lemma lower_lstrip (s : string) : lstrip (lower s) = lower (lstrip s).
Proof.
  induction s as [|c s IH]; cbn [lower lstrip]; [reflexivity|].
  rewrite isspace_lower_char. destruct (isspace c); [exact IH | reflexivity].
Qed.

Lemma lower_rstrip (s : string) : rstrip (lower s) = lower (rstrip s).
Proof.
  induction s as [|c s IH]; cbn [lower rstrip]; [reflexivity|].
  rewrite IH, isspace_lower_char.
  destruct (rstrip s); cbn [lower]; [destruct (isspace c)|]; reflexivity.
Qed.

Lemma lower_strip (s : string) : strip (lower s) = lower (strip s).
Proof. unfold strip. now rewrite lower_lstrip, lower_rstrip. Qed.

Lemma lstrip_idem (s : string) : lstrip (lstrip s) = lstrip s.
Proof.
  induction s as [|c s IH]; cbn [lstrip]; [reflexivity|].
  destruct (isspace c) eqn:E; [exact IH|]. cbn [lstrip]. now rewrite E.
Qed.

Lemma rstrip_idem (s : string) : rstrip (rstrip s) = rstrip s.
Proof.
  induction s as [|c s IH]; cbn [rstrip]; [reflexivity|].
  destruct (rstrip s) as [|c' r] eqn:E.
  - destruct (isspace c) eqn:Ec; cbn [rstrip]; [reflexivity|]. now rewrite Ec.
  - cbn [rstrip]. cbn [rstrip] in IH. now rewrite IH.
Qed.

(** Stripping the right end leaves a stripped left end as it is. *)
Lemma lstrip_rstrip (s : string) : lstrip s = s -> lstrip (rstrip s) = rstrip s.
Proof.
  destruct s as [|c s]; [reflexivity|]. cbn [lstrip rstrip].
  destruct (isspace c) eqn:E.
  - intro H. exfalso. assert (L : (String.length (lstrip s) <= String.length s)%nat).
    { clear. induction s as [|c s IH]; cbn [lstrip]; [constructor|].
      destruct (isspace c); cbn [String.length]; lia. }
    rewrite H in L. cbn [String.length] in L. lia.
  - intros _. destruct (rstrip s); cbn [lstrip]; now rewrite E.
Qed.

Lemma strip_idem (s : string) : strip (strip s) = strip s.
Proof.
  unfold strip. rewrite (lstrip_rstrip (lstrip s) (lstrip_idem s)).
  apply rstrip_idem.
Qed.

Lemma lstrip_blank (s : string) : blank s = true -> lstrip s = EmptyString.
Proof.
  induction s as [|c s IH]; cbn [blank lstrip]; [reflexivity|].
  destruct (isspace c); [exact IH | discriminate].
Qed.

Lemma rstrip_blank (s : string) : blank s = true -> rstrip s = EmptyString.
Proof.
  induction s as [|c s IH]; cbn [blank rstrip]; [reflexivity|].
  destruct (isspace c); [|discriminate]. intro H. now rewrite (IH H).
Qed.

Lemma lstrip_blank_app (pre s : string) :
  blank pre = true -> lstrip (pre ++ s) = lstrip s.
Proof.
  induction pre as [|c pre IH]; cbn [blank append lstrip]; [reflexivity|].
  destruct (isspace c); [exact IH | discriminate].
Qed.

Lemma rstrip_app_blank (s post : string) :
  blank post = true -> rstrip (s ++ post) = rstrip s.
Proof.
  intro H. induction s as [|c s IH]; cbn [append rstrip].
  - now apply rstrip_blank.
  - now rewrite IH.
Qed.

Lemma lstrip_app (s post : string) :
  blank s = false -> lstrip (s ++ post) = (lstrip s ++ post)%string.
Proof.
  induction s as [|c s IH]; cbn [blank append lstrip]; [discriminate|].
  destruct (isspace c); [exact IH | reflexivity].
Qed.

(** White space around a string does not change what [strip] returns. *)
Lemma strip_padded (pre core post : string) :
  blank pre = true -> blank post = true ->
  strip (pre ++ core ++ post) = strip core.
Proof.
  intros Hpre Hpost. unfold strip. rewrite (lstrip_blank_app pre _ Hpre).
  destruct (blank core) eqn:Ec.
  - rewrite (lstrip_blank core Ec).
    assert (Hb : blank (core ++ post) = true).
    { clear Hpre. induction core as [|c core IH]; cbn [append blank] in *;
        [exact Hpost|].
      destruct (isspace c); [now apply IH | discriminate]. }
    now rewrite (lstrip_blank _ Hb).
  - rewrite (lstrip_app core post Ec). now apply rstrip_app_blank.
Qed.

Lemma lstrip_decomp (s : string) :
  exists pre, blank pre = true /\ s = (pre ++ lstrip s)%string.
Proof.
  induction s as [|c s [pre [Hb Hs]]]; [now exists EmptyString|].
  cbn [lstrip]. destruct (isspace c) eqn:E.
  - exists (String c pre). cbn [blank append]. rewrite E, Hb. split; [reflexivity|].
    now rewrite <- Hs.
  - now exists EmptyString.
Qed.

Lemma rstrip_decomp (s : string) :
  exists post, blank post = true /\ s = (rstrip s ++ post)%string.
Proof.
  induction s as [|c s [post [Hb Hs]]]; [now exists EmptyString|].
  cbn [rstrip]. destruct (rstrip s) as [|c' r] eqn:E.
  - cbn [append] in Hs. subst s. destruct (isspace c) eqn:Ec.
    + exists (String c post). cbn [blank append]. now rewrite Ec, Hb.
    + exists post. auto.
  - exists post. split; [exact Hb|]. cbn [append]. cbn [append] in Hs.
    now rewrite <- Hs.
Qed.

Lemma append_assoc (a b c : string) : ((a ++ b) ++ c = a ++ (b ++ c))%string.
Proof.
  induction a as [|x a IH]; cbn [append]; [reflexivity | now rewrite IH].
Qed.

Lemma strip_decomp (s : string) :
  exists pre post, blank pre = true /\ blank post = true
                   /\ s = (pre ++ strip s ++ post)%string.
Proof.
  destruct (lstrip_decomp s) as [pre [Hpre Hs]].
  destruct (rstrip_decomp (lstrip s)) as [post [Hpost Hl]].
  exists pre, post. split; [exact Hpre|]. split; [exact Hpost|].
  unfold strip. now rewrite <- Hl.
Qed.

(** X13.  The pay codes that [load_data] returns are in normal form: on
    ASCII text, lower-casing and stripping the result again changes
    nothing, the result has no upper-case letter and no white space at
    either end. *)
Theorem X13_pay_code_normal_form (s : string) :
  ascii_text s ->
  normalize_pay_code (normalize_pay_code (Some s)) = normalize_pay_code (Some s)
  /\ lower (strip (lower s)) = strip (lower s)
  /\ lstrip (strip (lower s)) = strip (lower s)
  /\ rstrip (strip (lower s)) = strip (lower s).
Proof.
  intros _. cbn [normalize_pay_code option_map]. repeat split.
  - f_equal.
    now rewrite (lower_strip (strip (lower s))), strip_idem, (lower_strip s), lower_idem.
  - now rewrite (lower_strip s), lower_idem.
  - unfold strip. apply lstrip_rstrip, lstrip_idem.
  - unfold strip. apply rstrip_idem.
Qed.

Lemma X13_pay_code_normal_form_witness :
  ascii_text "  Regular "
  /\ normalize_pay_code (normalize_pay_code (Some "  Regular "%string))
     = Some "regular"%string.
Proof.
  assert (H : ascii_text "  Regular ").
  { unfold ascii_text. cbn. repeat constructor. }
  split; [exact H|].
  rewrite (proj1 (X13_pay_code_normal_form "  Regular " H)). reflexivity.
Defined.

(** X14.  On ASCII text, the pay code of a row after [load_data] is a given
    stripped string, such as "regular" or "overtime", exactly when the cell
    read from the sheet is that string up to the case of its letters and to
    white space before and after it. *)
Theorem X14_pay_code_match (s t : string) :
  ascii_text s -> strip t = t ->
  (normalize_pay_code (Some s) = Some t
   <-> exists pre core post,
         s = (pre ++ core ++ post)%string
         /\ blank pre = true /\ blank post = true /\ lower core = t).
Proof.
  intros _ Ht. cbn [normalize_pay_code option_map]. split.
  - intro H. injection H as H.
    destruct (strip_decomp s) as [pre [post [Hpre [Hpost Hs]]]].
    exists pre, (strip s), post. repeat split; try assumption.
    now rewrite <- lower_strip.
  - intros [pre [core [post [-> [Hpre [Hpost Hc]]]]]]. f_equal.
    rewrite lower_strip, (strip_padded pre core post Hpre Hpost).
    now rewrite <- lower_strip, Hc.
Qed.

Lemma X14_pay_code_match_witness :
  ascii_text " OverTime  " /\ strip "overtime" = "overtime"%string
  /\ normalize_pay_code (Some " OverTime  "%string) = Some "overtime"%string.
Proof.
  assert (H : ascii_text " OverTime  ").
  { unfold ascii_text. cbn. repeat constructor. }
  split; [exact H|]. split; [reflexivity|].
  apply (proj2 (X14_pay_code_match " OverTime  " "overtime" H eq_refl)).
  exists " "%string, "OverTime"%string, "  "%string. repeat split.
Defined.
